(** * roop/core.py: the command-line pipeline of the face swapper

    A shallow embedding of the functions of [roop/core.py], from
    [parse_args] to [run], and of the component registry of
    [roop/uis/core.py], and the properties of the pipeline proved over
    it.

    Python values are modelled as follows.  [int] is [Z]; [str] is
    [string]; a value that may be [None] is an [option]; a list is a
    [list]; the scores returned by the NSFW classifier are finite floats,
    modelled by the rationals [Q] they denote (the test [> 0.85] is exact
    on finite floats, and no float lies strictly between the double
    nearest to 0.85 and the rational 85/100); the float quotient of
    [suggest_cpu_cores] is rounded to 53 significant bits.  The module
    [roop.globals] is a record that is threaded through the effectful
    code together with the trace of the calls made to the outside
    world. *)

From Stdlib Require Import ZArith List String Ascii Bool Arith Lia QArith.
From Stdlib Require DecimalString.
Import ListNotations.
Local Open Scope string_scope.
Local Open Scope list_scope.
Local Open Scope Z_scope.

(* ===================================================================== *)
(** ** Python primitives used by the module *)
(* ===================================================================== *)

Module Py.

(** Truth value of a [str] that may be [None]: [None] and [''] are false. *)
Definition truthy (o : option string) : bool :=
  match o with
  | Some s => negb (s =? "")%string
  | None => false
  end.

(** [a or b]: the first operand when it is true, else the second. *)
Definition or_ (a b : option string) : option string :=
  if truthy a then a else b.

(** [x in l] for a list of strings. *)
Definition contains (x : string) (l : list string) : bool :=
  existsb (String.eqb x) l.

(** [a < b] and [a > b] on [str]: lexicographic on code points. *)
Definition str_lt (a b : string) : bool := String.ltb a b.
Definition str_gt (a b : string) : bool := String.ltb b a.

(** [a < b] on tuples of integers: lexicographic, a proper prefix is
    smaller. *)
Fixpoint tuple_lt (a b : list Z) : bool :=
  match a, b with
  | _, [] => false
  | [], _ :: _ => true
  | x :: a', y :: b' =>
      if x <? y then true
      else if y <? x then false
      else tuple_lt a' b'
  end.

(** [range(start, stop, step)] for a positive [step]. *)
Definition range (start stop step : Z) : list Z :=
  map (fun k => start + Z.of_nat k * step)
      (seq 0 (Z.to_nat ((stop - start + step - 1) / step))).

(** Clamping of a slice bound to [0 .. len], negative bounds counting
    from the end. *)
Definition clamp (len k : Z) : Z :=
  if k <? 0 then Z.max 0 (k + len) else Z.min k len.

(** [l[i:j]]. *)
Definition slice {A : Type} (l : list A) (i j : Z) : list A :=
  let len := Z.of_nat (List.length l) in
  let a := clamp len i in
  let b := clamp len j in
  firstn (Z.to_nat (b - a)) (skipn (Z.to_nat a) l).

(** [any(p(x) for x in l)]. *)
Definition any {A : Type} (p : A -> bool) (l : list A) : bool := existsb p l.

End Py.

(* ===================================================================== *)
(** ** The global configuration, [roop.globals] *)
(* ===================================================================== *)

Record globals : Type := mkGlobals {
  source_path : option string;
  target_path : option string;
  output_path : option string;
  frame_processors : list string;
  headless : option string;
  keep_fps : bool;
  keep_audio : bool;
  keep_frames : bool;
  many_faces : bool;
  video_encoder : string;
  video_quality : Z;
  max_memory : Z;
  cpu_cores : Z;
  gpu_threads : Z;
  providers : list string;
  gpu_vendor : option string
}.

Definition set_providers (p : list string) (g : globals) : globals :=
  mkGlobals (source_path g) (target_path g) (output_path g)
            (frame_processors g) (headless g) (keep_fps g) (keep_audio g)
            (keep_frames g) (many_faces g) (video_encoder g)
            (video_quality g) (max_memory g) (cpu_cores g) (gpu_threads g)
            p (gpu_vendor g).

Definition set_gpu_vendor (v : option string) (g : globals) : globals :=
  mkGlobals (source_path g) (target_path g) (output_path g)
            (frame_processors g) (headless g) (keep_fps g) (keep_audio g)
            (keep_frames g) (many_faces g) (video_encoder g)
            (video_quality g) (max_memory g) (cpu_cores g) (gpu_threads g)
            (providers g) v.

Definition set_gpu_threads (n : Z) (g : globals) : globals :=
  mkGlobals (source_path g) (target_path g) (output_path g)
            (frame_processors g) (headless g) (keep_fps g) (keep_audio g)
            (keep_frames g) (many_faces g) (video_encoder g)
            (video_quality g) (max_memory g) (cpu_cores g) n
            (providers g) (gpu_vendor g).

(* ===================================================================== *)
(** ** [parse_args] *)
(* ===================================================================== *)

(** The namespace returned by [parser.parse_known_args()[0]]: one field
    per [add_argument], named by its [dest]. *)
Record namespace : Type := mkNamespace {
  ns_source_path : option string;
  ns_target_path : option string;
  ns_output_path : option string;
  ns_frame_processor : list string;
  ns_keep_fps : bool;
  ns_keep_audio : bool;
  ns_keep_frames : bool;
  ns_many_faces : bool;
  ns_video_encoder : string;
  ns_video_quality : Z;
  ns_max_memory : Z;
  ns_cpu_cores : Z;
  ns_execution_provider : string;
  ns_gpu_threads : Z;
  ns_gpu_vendor : option string
}.

(** The assignments of [parse_args] to [roop.globals], in order.  [g0] is
    the module as it stands before the call: [providers] and [gpu_vendor]
    are the only fields that are not assigned unconditionally. *)
Definition parse_args (g0 : globals) (args : namespace) : globals :=
  let g :=
    mkGlobals (ns_source_path args) (ns_target_path args)
              (ns_output_path args) (ns_frame_processor args)
              (Py.or_ (Py.or_ (ns_source_path args) (ns_target_path args))
                      (ns_output_path args))
              (ns_keep_fps args) (ns_keep_audio args) (ns_keep_frames args)
              (ns_many_faces args) (ns_video_encoder args)
              (ns_video_quality args) (ns_max_memory args)
              (ns_cpu_cores args) (ns_gpu_threads args)
              (providers g0) (gpu_vendor g0) in
  let g :=
    if (ns_execution_provider args =? "directml")%string
    then set_gpu_vendor (Some "other") (set_providers ["DmlExecutionProvider"] g)
    else g in
  if Py.truthy (ns_gpu_vendor args)
  then set_gpu_vendor (ns_gpu_vendor args) g
  else set_providers ["CPUExecutionProvider"] g.

(** [suggest_gpu_threads], the default of [--gpu-threads]. *)
Definition suggest_gpu_threads (g : globals) : Z :=
  if Py.contains "DmlExecutionProvider" (providers g) then 1
  else if Py.contains "ROCMExecutionProvider" (providers g) then 2
  else 8.

(** The namespace of a command line that gives no flag at all, on a
    machine where [suggest_max_memory] is 16 and [suggest_cpu_cores] is
    [cores]. *)
Definition default_namespace (g0 : globals) (cores : Z) : namespace :=
  mkNamespace None None None ["face-swapper"] false true false false
              "libx264" 18 16 cores "cpu" (suggest_gpu_threads g0) None.

Definition with_execution_provider (p : string) (a : namespace) : namespace :=
  mkNamespace (ns_source_path a) (ns_target_path a) (ns_output_path a)
              (ns_frame_processor a) (ns_keep_fps a) (ns_keep_audio a)
              (ns_keep_frames a) (ns_many_faces a) (ns_video_encoder a)
              (ns_video_quality a) (ns_max_memory a) (ns_cpu_cores a)
              p (ns_gpu_threads a) (ns_gpu_vendor a).

(** [roop.globals] before [parse_args] on a machine whose inference
    runtime offers DirectML and the CPU. *)
Definition globals_dml : globals :=
  mkGlobals None None None [] None false false false false "" 0 0 0 0
            ["DmlExecutionProvider"; "CPUExecutionProvider"] None.


(* ===================================================================== *)
(** ** The outside world *)
(* ===================================================================== *)

(** The two frame-processor modules, [roop.swapper] and [roop.enhancer]. *)
Inductive processor : Type := FaceSwapper | FaceEnhancer.

(** What the functions read from the machine they run on.  Each field is
    the value of the Python expression named in its comment.  The three
    [torch] fields are what the module [torch] answers; whether the name
    [torch] is still bound in [roop.core] is decided by
    [imported_providers]. *)
Record env : Type := mkEnv {
  version_info : Z * Z * Z;            (* sys.version_info[:3] *)
  which_ffmpeg : option string;        (* shutil.which('ffmpeg') *)
  imported_providers : list string;    (* roop.globals.providers when roop.core is imported *)
  torch_cuda_is_available : bool;      (* torch.cuda.is_available() *)
  cuda_version : string;               (* torch.version.cuda *)
  cudnn_version : Z;                   (* torch.backends.cudnn.version() *)
  isfile : string -> bool;             (* os.path.isfile(path), on entry to start *)
  get_one_face : string -> bool;       (* bool(get_one_face(cv2.imread(path))) *)
  has_image_extension : string -> bool;
  is_image : string -> bool;
  is_video : string -> bool;
  predict_image : string -> Q;         (* opennsfw2.predict_image(path) *)
  predict_video_frames : string -> list Q;  (* the probabilities, frame_interval=100 *)
  copy_temp_image : string -> string;  (* the temp path it returns *)
  temp_isfile : string -> bool;        (* os.path.isfile(temp_image_path), after processing *)
  get_temp_frame_paths : string -> list string;
  detect_fps : string -> string;       (* str(detect_fps(path)) *)
  (* process_video(source, frames, mode) of a processor module: [None]
     when the call returns, [Some e] when it raises the exception [e] *)
  video_fault : processor -> option string -> list string -> string -> option string
}.

(** The statement at the head of [roop/core.py],
    [if 'ROCMExecutionProvider' in roop.globals.providers: del torch]:
    the name [torch] is unbound in the module from then on. *)
Definition torch_deleted (E : env) : bool :=
  Py.contains "ROCMExecutionProvider" (imported_providers E).

(** CUDA is available to the program: the name [torch] is bound and
    [torch.cuda.is_available()] is true. *)
Definition cuda_is_available (E : env) : bool :=
  negb (torch_deleted E) && torch_cuda_is_available E.

(** Exceptions that leave the functions modelled. *)
Inductive exn : Type :=
| SystemExit (message : option string)   (* quit(message), quit() *)
| ZeroDivisionError                      (* n // 0 *)
| WorkerError (e : string)               (* raised by process_video *)
| NameError (name : string).             (* an unbound name is evaluated *)

(** Calls to the outside world, in program order. *)
Inductive event : Type :=
| Status (message : string)
| CreateTemp (target : string)
| CleanTemp (target : string)
| CopyTempImage (target : string)
| ProcessImage (p : processor) (source : string) (input output : string)
| ShutilMove (src : string) (dst : option string)
| PoolCreate (processes : Z)
| ApplyAsync (p : processor) (source : option string) (chunk : list string) (mode : string)
| Get (k : nat)
| PoolClose
| PoolJoin
| ProcessVideo (p : processor) (source : option string) (frames : list string) (mode : string)
| EmptyCache
| ExtractFrames (target : string)
| DetectFps (target : string)
| CreateVideo (target : string) (fps : option string)
| RestoreAudio (target : string) (output : option string)
| MoveTemp (target : string) (output : option string)
| SwapperPreCheck
| LimitResources
| UiMainloop.

(* ===================================================================== *)
(** ** The monad of the effectful functions *)
(* ===================================================================== *)

Inductive outcome (A : Type) : Type :=
| Ret (a : A)
| Raise (e : exn).
Arguments Ret {A} a.
Arguments Raise {A} e.

(** A computation reads and writes [roop.globals], appends to the trace
    and either returns or raises. *)
Definition M (A : Type) : Type := globals -> outcome A * globals * list event.

Definition ret {A : Type} (a : A) : M A := fun g => (Ret a, g, []).

Definition bind {A B : Type} (m : M A) (f : A -> M B) : M B :=
  fun g =>
    match m g with
    | (Ret a, g1, t1) =>
        match f a g1 with
        | (r, g2, t2) => (r, g2, t1 ++ t2)
        end
    | (Raise e, g1, t1) => (Raise e, g1, t1)
    end.

Definition raise {A : Type} (e : exn) : M A := fun g => (Raise e, g, []).
Definition emit (e : event) : M unit := fun g => (Ret tt, g, [e]).
Definition read : M globals := fun g => (Ret g, g, []).
Definition write (g' : globals) : M unit := fun _ => (Ret tt, g', []).

Declare Scope py_scope.
Delimit Scope py_scope with py.
Notation "x <- m ;; k" := (bind m (fun x => k))
  (at level 61, m at next level, right associativity) : py_scope.
Notation "m ;; k" := (bind m (fun _ => k))
  (at level 61, right associativity) : py_scope.
Local Open Scope py_scope.

(** [if c: body] with no [else]. *)
Definition when (c : bool) (body : M unit) : M unit :=
  if c then body else ret tt.

(** [for x in l: body(x)]. *)
Fixpoint for_each {A : Type} (l : list A) (body : A -> M unit) : M unit :=
  match l with
  | [] => ret tt
  | x :: l' => body x ;; for_each l' body
  end.

(** A [for] loop that rebinds a local variable [acc] at each turn. *)
Fixpoint for_acc {A B : Type} (l : list A) (acc : B) (body : B -> A -> M B) : M B :=
  match l with
  | [] => ret acc
  | x :: l' => acc' <- body acc x ;; for_acc l' acc' body
  end.

(** The three components of a run. *)
Definition result_of {A : Type} (r : outcome A * globals * list event) : outcome A :=
  fst (fst r).
Definition globals_of {A : Type} (r : outcome A * globals * list event) : globals :=
  snd (fst r).
Definition trace_of {A : Type} (r : outcome A * globals * list event) : list event :=
  snd r.

(** [quit(message)] and [quit()]. *)
Definition quit {A : Type} (message : option string) : M A :=
  raise (SystemExit message).

(** [o == s] for an attribute that may be [None]. *)
Definition is_str (o : option string) (s : string) : bool :=
  match o with
  | Some v => (v =? s)%string
  | None => false
  end.

(** [o is None]. *)
Definition is_none (o : option string) : bool :=
  match o with
  | Some _ => false
  | None => true
  end.

(* ===================================================================== *)
(** ** The functions of [roop/core.py] *)
(* ===================================================================== *)

(** [str(n)] for an [int]. *)
Definition str_of_int (n : Z) : string :=
  DecimalString.NilZero.string_of_int (Z.to_int n).

(** The handle returned by [POOL.apply_async]: its position among the
    submitted tasks and what [get] will find when the task is over. *)
Record async_result : Type := mkAsync {
  ar_id : nat;
  ar_fault : option string
}.

(** An NSFW score above the threshold: [score > 0.85]. *)
Definition above_threshold (score : Q) : bool :=
  negb (Qle_bool score (85 # 100)).

(** The slices the pooled branch submits, in submission order:
    [temp_frame_paths[i:i + pool_amount]] for [i] in
    [range(0, len(temp_frame_paths), pool_amount)]. *)
Definition pool_slices (temp_frame_paths : list string) (pool_amount : Z)
  : list (list string) :=
  map (fun i => Py.slice temp_frame_paths i (i + pool_amount))
      (Py.range 0 (Z.of_nat (List.length temp_frame_paths)) pool_amount).

Section Core.

Variable E : env.

Definition version_tuple : list Z :=
  match version_info E with
  | (major, minor, micro) => [major; minor; micro]
  end.

(** The evaluation of the name [torch]. *)
Definition lookup_torch : M unit :=
  if torch_deleted E then raise (NameError "torch") else ret tt.

Definition pre_check : M unit :=
  when (Py.tuple_lt version_tuple [3; 9])
    (quit (Some "Python version is not supported - please upgrade to 3.9 or higher.")) ;;
  when (negb (Py.truthy (which_ffmpeg E)))
    (quit (Some "ffmpeg is not installed!")) ;;
  g <- read ;;
  when (is_str (gpu_vendor g) "apple")
    (when (negb (Py.contains "CoreMLExecutionProvider" (providers g)))
       (quit (Some "You are using --gpu=apple flag but CoreML is not available or properly installed on your system."))) ;;
  when (is_str (gpu_vendor g) "amd")
    (when (negb (Py.contains "ROCMExecutionProvider" (providers g)))
       (quit (Some "You are using --gpu=amd flag but ROCM is not available or properly installed on your system."))) ;;
  when (is_str (gpu_vendor g) "nvidia")
    (lookup_torch ;;
     when (negb (torch_cuda_is_available E))
       (quit (Some "You are using --gpu=nvidia flag but CUDA is not available or properly installed on your system.")) ;;
     lookup_torch ;;
     when (Py.str_gt (cuda_version E) "11.8")
       (quit (Some ("CUDA version " ++ cuda_version E ++ " is not supported - please downgrade to 11.8")%string)) ;;
     lookup_torch ;;
     when (Py.str_lt (cuda_version E) "11.4")
       (quit (Some ("CUDA version " ++ cuda_version E ++ " is not supported - please upgrade to 11.8")%string)) ;;
     lookup_torch ;;
     when (cudnn_version E <? 8220)
       (quit (Some ("CUDNN version " ++ str_of_int (cudnn_version E) ++ " is not supported - please upgrade to 8.9.1")%string)) ;;
     lookup_torch ;;
     when (cudnn_version E >? 8910)
       (quit (Some ("CUDNN version " ++ str_of_int (cudnn_version E) ++ " is not supported - please downgrade to 8.9.1")%string))).

(** [process_video(source, frames, mode)] called in the parent process. *)
Definition call_process_video (p : processor) (source : option string)
    (frames : list string) (mode : string) : M unit :=
  emit (ProcessVideo p source frames mode) ;;
  match video_fault E p source frames mode with
  | Some e => raise (WorkerError e)
  | None => ret tt
  end.

(** [POOL.apply_async(process_video, args=(source, chunk, mode))], the
    [k]-th submission. *)
Definition apply_async (p : processor) (source : option string)
    (chunk : list string) (mode : string) (k : nat) : M async_result :=
  emit (ApplyAsync p source chunk mode) ;;
  ret (mkAsync k (video_fault E p source chunk mode)).

(** [pool.get()]: blocks until the task is over, then returns its result
    or raises the exception the task raised. *)
Definition get (pool : async_result) : M unit :=
  emit (Get (ar_id pool)) ;;
  match ar_fault pool with
  | Some e => raise (WorkerError e)
  | None => ret tt
  end.

(** The parameter [source_path] is written [source_path'], the plain name
    being the attribute of [roop.globals]. *)
Definition conditional_process_video (process_video : processor)
    (source_path' : string) (temp_frame_paths : list string) : M unit :=
  g <- read ;;
  if cpu_cores g =? 0 then raise ZeroDivisionError
  else
    let pool_amount := Z.of_nat (List.length temp_frame_paths) / cpu_cores g in
    if (pool_amount >? 2) && (cpu_cores g >? 1) && is_none (gpu_vendor g)
    then
      emit (PoolCreate (cpu_cores g)) ;;
      pools <- for_acc
                 (Py.range 0 (Z.of_nat (List.length temp_frame_paths)) pool_amount)
                 []
                 (fun pools i =>
                    pool <- apply_async process_video (Some source_path')
                              (Py.slice temp_frame_paths i (i + pool_amount))
                              "cpu" (List.length pools) ;;
                    ret (pools ++ [pool])) ;;
      for_each pools get ;;
      emit PoolClose ;;
      emit PoolJoin
    else
      call_process_video process_video (source_path g) temp_frame_paths "gpu".

Definition update_status (message : string) : M unit :=
  emit (Status ("Status: " ++ message)%string).

Definition release_resources : M unit :=
  g <- read ;;
  when (is_str (gpu_vendor g) "nvidia") (lookup_torch ;; emit EmptyCache).

Definition destroy : M unit :=
  g <- read ;;
  match target_path g with
  | Some t => when (negb (t =? "")%string) (emit (CleanTemp t))
  | None => ret tt
  end ;;
  quit None.

(** [p and os.path.isfile(p)]: the path when both hold. *)
Definition usable (o : option string) : option string :=
  match o with
  | Some s => if negb (s =? "")%string && isfile E s then Some s else None
  | None => None
  end.

(** The image branch of [start], from the NSFW test to its [return]. *)
Definition start_image (source target : string) : M unit :=
  when (above_threshold (predict_image E target)) destroy ;;
  emit (CopyTempImage target) ;;
  let temp_image_path := copy_temp_image E target in
  g <- read ;;
  when (Py.contains "face-swapper" (frame_processors g))
    (update_status "Swapping in progress..." ;;
     emit (ProcessImage FaceSwapper source temp_image_path temp_image_path)) ;;
  when (is_str (gpu_vendor g) "nvidia"
        && Py.contains "face-enhancer" (frame_processors g))
    (update_status "Enhancing in progress..." ;;
     emit (ProcessImage FaceEnhancer source temp_image_path temp_image_path)) ;;
  when (temp_isfile E temp_image_path)
    (emit (ShutilMove temp_image_path (output_path g))) ;;
  if is_image E target
  then update_status "Processing to image succeed!"
  else update_status "Processing to image failed!".

(** The stages of the video branch of [start], each a block of
    consecutive statements of its body. *)
Definition swap_frames (source : string) (temp_frame_paths : list string) : M unit :=
  g <- read ;;
  when (Py.contains "face-swapper" (frame_processors g))
    (update_status "Swapping in progress..." ;;
     conditional_process_video FaceSwapper source temp_frame_paths).

Definition limit_gpu_threads : M unit :=
  g <- read ;;
  write (set_gpu_threads 1 g).

Definition enhance_frames (source : string) (temp_frame_paths : list string) : M unit :=
  g <- read ;;
  when (is_str (gpu_vendor g) "nvidia"
        && Py.contains "face-enhancer" (frame_processors g))
    (update_status "Enhancing in progress..." ;;
     conditional_process_video FaceEnhancer source temp_frame_paths).

Definition reassemble_video (target : string) : M unit :=
  g <- read ;;
  if keep_fps g
  then
    update_status "Detecting fps..." ;;
    emit (DetectFps target) ;;
    let fps := detect_fps E target in
    update_status ("Creating video with " ++ fps ++ " fps...")%string ;;
    emit (CreateVideo target (Some fps))
  else
    update_status "Creating video with 30.0 fps..." ;;
    emit (CreateVideo target None).

Definition restore_audio_or_move (target : string) : M unit :=
  g <- read ;;
  if keep_audio g
  then
    (if keep_fps g
     then update_status "Restoring audio..."
     else update_status "Restoring audio might cause issues as fps are not kept...") ;;
    emit (RestoreAudio target (output_path g))
  else emit (MoveTemp target (output_path g)).

Definition clean_up (target : string) : M unit :=
  emit (CleanTemp target) ;;
  (if is_video E target
   then update_status "Processing to video succeed!"
   else update_status "Processing to video failed!") ;;
  emit (CleanTemp target).

(** The video branch of [start], from the NSFW test to the end. *)
Definition start_video (source target : string) : M unit :=
  when (Py.any above_threshold (predict_video_frames E target)) destroy ;;
  update_status "Creating temp resources..." ;;
  emit (CreateTemp target) ;;
  update_status "Extracting frames..." ;;
  emit (ExtractFrames target) ;;
  let temp_frame_paths := get_temp_frame_paths E target in
  swap_frames source temp_frame_paths ;;
  release_resources ;;
  limit_gpu_threads ;;
  enhance_frames source temp_frame_paths ;;
  release_resources ;;
  reassemble_video target ;;
  restore_audio_or_move target ;;
  clean_up target.

Definition start : M unit :=
  g <- read ;;
  match usable (source_path g) with
  | None => update_status "Select an image that contains a face."
  | Some source =>
      match usable (target_path g) with
      | None => update_status "Select an image or video target!"
      | Some target =>
          if negb (get_one_face E source)
          then update_status "No face detected in source image. Please try with another one!"
          else
            emit (CreateTemp target) ;;
            if has_image_extension E target
            then start_image source target
            else start_video source target
      end
  end.

(** [start_in_thread], the handler of the start button:
    [threading.Thread(target=start).start()].  [start] runs in a thread
    of its own, and an exception that leaves it ends that thread and
    nothing else: [threading] drops [SystemExit] and reports any other
    exception, and the caller sees neither.  The calls of the thread
    are recorded as made by the time the caller goes on. *)
Definition start_in_thread : M unit :=
  fun g =>
    match start g with
    | (_, g', t) => (Ret tt, g', t)
    end.

(** [run], with the namespace [parse_args] obtains from the command line. *)
Definition run (args : namespace) : M unit :=
  g0 <- read ;;
  write (parse_args g0 args) ;;
  pre_check ;;
  g <- read ;;
  when (Py.contains "face-swapper" (frame_processors g)) (emit SwapperPreCheck) ;;
  emit LimitResources ;;
  g <- read ;;
  if Py.truthy (headless g)
  then start
  else emit UiMainloop.

End Core.

(* ===================================================================== *)
(** ** Observations on traces and statements of the specification *)
(* ===================================================================== *)

Definition processor_eqb (p q : processor) : bool :=
  match p, q with
  | FaceSwapper, FaceSwapper => true
  | FaceEnhancer, FaceEnhancer => true
  | _, _ => false
  end.

Definition is_pool_create (e : event) : bool :=
  match e with PoolCreate _ => true | _ => false end.

Definition is_apply_async (e : event) : bool :=
  match e with ApplyAsync _ _ _ _ => true | _ => false end.

(** The number of chunks submitted to a pool in a trace. *)
Definition submissions (t : list event) : nat :=
  List.length (filter is_apply_async t).

(** The handles on which [get] was called in a trace. *)
Fixpoint retrieved (t : list event) : list nat :=
  match t with
  | [] => []
  | Get k :: t' => k :: retrieved t'
  | _ :: t' => retrieved t'
  end.

(** The submitted tasks whose result was not retrieved.  [get] blocks
    until its task is over, so a task that is not listed is finished. *)
Definition unfinished (t : list event) : list nat :=
  filter (fun k => negb (existsb (Nat.eqb k) (retrieved t)))
         (seq 0 (submissions t)).

(** The work a trace hands to [process_video]: each frame with the source
    image it is processed with, for the calls of processor [p]. *)
Fixpoint work (p : processor) (t : list event) : list (option string * string) :=
  match t with
  | [] => []
  | ApplyAsync q source chunk _ :: t' =>
      (if processor_eqb p q then map (pair source) chunk else []) ++ work p t'
  | ProcessVideo q source frames _ :: t' =>
      (if processor_eqb p q then map (pair source) frames else []) ++ work p t'
  | _ :: t' => work p t'
  end.




(** An event that writes the output file. *)
Definition writes_output (e : event) : bool :=
  match e with
  | ShutilMove _ _ | RestoreAudio _ _ | MoveTemp _ _ => true
  | _ => false
  end.

(** What [get] finds for the tasks numbered from [k], given what each
    task raised: the calls to [get] stop at the first task that failed. *)
Fixpoint get_all (k : nat) (faults : list (option string))
  : outcome unit * list event :=
  match faults with
  | [] => (Ret tt, [])
  | None :: faults' =>
      match get_all (S k) faults' with
      | (r, t) => (r, Get k :: t)
      end
  | Some e :: _ => (Raise (WorkerError e), [Get k])
  end.

(** The handles numbered from [k]. *)
Fixpoint number_from (k : nat) (faults : list (option string)) : list async_result :=
  match faults with
  | [] => []
  | f :: faults' => mkAsync k f :: number_from (S k) faults'
  end.

(** The first task that failed, with its exception. *)
Fixpoint first_fault (k : nat) (faults : list (option string)) : option (nat * string) :=
  match faults with
  | [] => None
  | None :: faults' => first_fault (S k) faults'
  | Some e :: _ => Some (k, e)
  end.

(** The conditions under which [conditional_process_video] takes the
    pooled branch. *)
Definition pooled (g : globals) (temp_frame_paths : list string) : Prop :=
  Z.of_nat (List.length temp_frame_paths) / cpu_cores g > 2 /\
  cpu_cores g > 1 /\
  gpu_vendor g = None.

(** The chunks of the pooled branch under the configuration [g], what
    their tasks raise and their submission events. *)
Definition chunks (frames : list string) (g : globals) : list (list string) :=
  pool_slices frames (Z.of_nat (List.length frames) / cpu_cores g).

Definition chunk_faults (E : env) (p : processor) (source : string)
    (frames : list string) (g : globals) : list (option string) :=
  map (fun chunk => video_fault E p (Some source) chunk "cpu") (chunks frames g).

Definition chunk_events (p : processor) (source : string)
    (frames : list string) (g : globals) : list event :=
  map (fun chunk => ApplyAsync p (Some source) chunk "cpu") (chunks frames g).

(** The unsupported environments of [pre_check], as the specification
    lists them. *)
Definition python_below_3_9 (E : env) : bool :=
  match version_info E with
  | (major, minor, _) => (major <? 3) || ((major =? 3) && (minor <? 9))
  end.

Definition ffmpeg_missing (E : env) : bool :=
  negb (Py.truthy (which_ffmpeg E)).

Definition cuda_in_range (v : string) : bool :=
  String.leb "11.4" v && String.leb v "11.8".

Definition cudnn_in_range (n : Z) : bool :=
  (8220 <=? n) && (n <=? 8910).

Definition accelerator_unavailable (E : env) (g : globals) : bool :=
  (is_str (gpu_vendor g) "apple"
   && negb (Py.contains "CoreMLExecutionProvider" (providers g)))
  || (is_str (gpu_vendor g) "amd"
      && negb (Py.contains "ROCMExecutionProvider" (providers g)))
  || (is_str (gpu_vendor g) "nvidia"
      && (negb (cuda_is_available E)
          || negb (cuda_in_range (cuda_version E))
          || negb (cudnn_in_range (cudnn_version E)))).

Definition unsupported (E : env) (g : globals) : bool :=
  python_below_3_9 E || ffmpeg_missing E || accelerator_unavailable E g.

(** A version string [major.minor] and the numeric reading of the
    supported CUDA range, 11.4 to 11.8. *)
Definition version_string (major minor : Z) : string :=
  (str_of_int major ++ "." ++ str_of_int minor)%string.

Definition cuda_numeric_in_range (major minor : Z) : bool :=
  (major =? 11) && (4 <=? minor) && (minor <=? 8).

(** The target is flagged by the NSFW test of [start]. *)
Definition flagged (E : env) (target : string) : bool :=
  if has_image_extension E target
  then above_threshold (predict_image E target)
  else Py.any above_threshold (predict_video_frames E target).

(** The trace of an image target that passes the checks, stage by stage. *)
Definition image_stages (E : env) (g : globals) (source target : string)
  : list event :=
  let temp := copy_temp_image E target in
  [CreateTemp target; CopyTempImage target]
  ++ (if Py.contains "face-swapper" (frame_processors g)
      then [Status "Status: Swapping in progress...";
            ProcessImage FaceSwapper source temp temp]
      else [])
  ++ (if is_str (gpu_vendor g) "nvidia"
         && Py.contains "face-enhancer" (frame_processors g)
      then [Status "Status: Enhancing in progress...";
            ProcessImage FaceEnhancer source temp temp]
      else [])
  ++ (if temp_isfile E temp then [ShutilMove temp (output_path g)] else [])
  ++ [Status (if is_image E target
              then "Status: Processing to image succeed!"
              else "Status: Processing to image failed!")].

(** The trace of a video target that passes the checks, stage by stage:
    extraction, swap, enhancement, reassembly, audio or move, cleanup. *)
Definition extraction_stage (target : string) : list event :=
  [CreateTemp target;
   Status "Status: Creating temp resources...";
   CreateTemp target;
   Status "Status: Extracting frames...";
   ExtractFrames target].

Definition swap_stage (E : env) (g : globals) (source target : string) : list event :=
  if Py.contains "face-swapper" (frame_processors g)
  then Status "Status: Swapping in progress..."
       :: trace_of (conditional_process_video E FaceSwapper source
                      (get_temp_frame_paths E target) g)
  else [].

Definition enhance_stage (E : env) (g : globals) (source target : string) : list event :=
  if is_str (gpu_vendor g) "nvidia"
     && Py.contains "face-enhancer" (frame_processors g)
  then Status "Status: Enhancing in progress..."
       :: trace_of (conditional_process_video E FaceEnhancer source
                      (get_temp_frame_paths E target) (set_gpu_threads 1 g))
  else [].

Definition release_stage (g : globals) : list event :=
  if is_str (gpu_vendor g) "nvidia" then [EmptyCache] else [].

Definition reassembly_stage (E : env) (g : globals) (target : string) : list event :=
  if keep_fps g
  then [Status "Status: Detecting fps...";
        DetectFps target;
        Status ("Status: Creating video with " ++ detect_fps E target ++ " fps...")%string;
        CreateVideo target (Some (detect_fps E target))]
  else [Status "Status: Creating video with 30.0 fps...";
        CreateVideo target None].

Definition audio_stage (g : globals) (target : string) : list event :=
  if keep_audio g
  then [Status (if keep_fps g
                then "Status: Restoring audio..."
                else "Status: Restoring audio might cause issues as fps are not kept...");
        RestoreAudio target (output_path g)]
  else [MoveTemp target (output_path g)].

Definition cleanup_stage (E : env) (target : string) : list event :=
  [CleanTemp target;
   Status (if is_video E target
           then "Status: Processing to video succeed!"
           else "Status: Processing to video failed!");
   CleanTemp target].

Definition video_stages (E : env) (g : globals) (source target : string)
  : list event :=
  extraction_stage target
  ++ swap_stage E g source target
  ++ release_stage g
  ++ enhance_stage E g source target
  ++ release_stage g
  ++ reassembly_stage E g target
  ++ audio_stage g target
  ++ cleanup_stage E target.

(** A run keeps to the expected trace: what it did is a prefix of it, and
    the whole of it when the run returns. *)
Definition follows (r : outcome unit * globals * list event)
    (expected : list event) : Prop :=
  (exists rest, expected = trace_of r ++ rest)
  /\ (result_of r = Ret tt -> trace_of r = expected).

(* ===================================================================== *)
(** ** Concrete machines and configurations *)
(* ===================================================================== *)

(** [n] frame paths, in the order of the video. *)
Definition frame_names (n : nat) : list string :=
  map (fun k => ("frame" ++ str_of_int (Z.of_nat k) ++ ".png")%string) (seq 1 n).

(** A supported machine: the target [target.png] is an image, any other
    target a video of frames [frames]; [score] is the NSFW score of every
    image and sampled frame; [fault] says which chunks make
    [process_video] raise. *)
Definition machine (frames : list string) (score : Q)
    (fault : list string -> option string) : env :=
  mkEnv (3, 10, 4) (Some "/usr/bin/ffmpeg") ["CPUExecutionProvider"]
        true "11.8" 8700
        (fun _ => true) (fun _ => true)
        (fun p => (p =? "target.png")%string)
        (fun p => (p =? "target.png")%string)
        (fun p => (p =? "target.mp4")%string)
        (fun _ => score) (fun _ => [score; score])
        (fun _ => "temp/target.png") (fun _ => true)
        (fun _ => frames) (fun _ => "25.0")
        (fun _ _ chunk _ => fault chunk).

Definition no_fault (chunk : list string) : option string := None.

(** [process_video] raises on the chunk that holds [frame]. *)
Definition fault_on (frame : string) (chunk : list string) : option string :=
  if Py.contains frame chunk then Some "cannot read frame" else None.

(** [roop.globals] after a headless command line. *)
Definition configuration (source target : string) (cores : Z)
    (processors : list string) (vendor : option string) : globals :=
  mkGlobals (Some source) (Some target) (Some "output") processors (Some source)
            false true false false "libx264" 18 16 cores 8
            ["CPUExecutionProvider"] vendor.

(** The command line [--execution-provider directml], nothing else, on a
    machine with four suggested cores. *)
Definition directml_command_line : namespace :=
  with_execution_provider "directml" (default_namespace globals_dml 4).

(** The command line [-f source -t target -o output --cpu-cores cores]
    with the frame processors [processors], no GPU vendor. *)
Definition headless_command_line (source target : string) (cores : Z)
    (processors : list string) : namespace :=
  mkNamespace (Some source) (Some target) (Some "output") processors
              false true false false "libx264" 18 16 cores "cpu" 8 None.

(* ===================================================================== *)
(** ** The suggested defaults and [limit_resources] *)
(* ===================================================================== *)

(** What [suggest_max_memory], [suggest_cpu_cores] and [limit_resources]
    read from the machine. *)
Record host : Type := mkHost {
  platform_system : string;      (* platform.system() *)
  cpu_count : option Z;          (* psutil.cpu_count(), None when undetermined *)
  physical_gpus : list string    (* tensorflow ... list_physical_devices('GPU') *)
}.

(** [str.lower()] on ASCII text. *)
Definition ascii_lower (c : ascii) : ascii :=
  let n := nat_of_ascii c in
  if (65 <=? n)%nat && (n <=? 90)%nat then ascii_of_nat (n + 32) else c.

Fixpoint str_lower (s : string) : string :=
  match s with
  | EmptyString => EmptyString
  | String c s' => String (ascii_lower c) (str_lower s')
  end.

Definition on_platform (h : host) (name : string) : bool :=
  (str_lower (platform_system h) =? name)%string.

Definition suggest_max_memory (h : host) : Z :=
  if on_platform h "darwin" then 4 else 16.

(** [max(a, b)] on numbers: the first argument unless the second is
    greater. *)
Definition num_max (a b : Q) : Q :=
  if Qle_bool b a then a else b.

(** [int(x)] on a number: truncation toward zero. *)
Definition int_of (x : Q) : Z :=
  Z.quot (Qnum x) (Z.pos (Qden x)).

(** Conversion of a natural number to a float: the nearest number with
    at most 53 significant bits, the even one of two that are equally
    near. *)
Definition round_to_53_bits (a : Z) : Z :=
  let e := Z.log2 a - 52 in
  if e <=? 0 then a
  else
    let q := a / 2 ^ e in
    let r := a mod 2 ^ e in
    let half := 2 ^ (e - 1) in
    (if (half <? r) || ((r =? half) && Z.odd q) then q + 1 else q) * 2 ^ e.

(** [n / 2] on an integer [n]: the float nearest to the quotient, which
    is half the float nearest to [n]; [None] stands for the
    [OverflowError] raised when that float would reach 2^1024. *)
Definition true_div_2 (n : Z) : option Q :=
  let a := round_to_53_bits (Z.abs n) in
  if 2 ^ 1025 <=? a then None else Some ((Z.sgn n * a) # 2).

(** [suggest_cpu_cores]: [None] stands for an exception, the
    [TypeError] of [None / 2] when the count of CPUs is undetermined or
    the [OverflowError] of the division. *)
Definition suggest_cpu_cores (h : host) : option Z :=
  if on_platform h "darwin" then Some 2
  else
    match cpu_count h with
    | None => None
    | Some n =>
        match true_div_2 n with
        | None => None
        | Some half => Some (int_of (num_max half 1))
        end
    end.

(** The calls [limit_resources] makes.  The arguments of
    [SetProcessWorkingSetSize] are the integers handed to
    [ctypes.c_size_t]. *)
Inductive resource_call : Type :=
| SetMemoryGrowth (gpu : string) (enable : bool)
| SetProcessWorkingSetSize (process : Z) (minimum maximum : Z)
| Setrlimit (soft hard : Z).

Definition limit_resources (h : host) (g : globals) : list resource_call :=
  map (fun gpu => SetMemoryGrowth gpu true) (physical_gpus h)
  ++ (if max_memory g =? 0 then []
      else
        let memory := max_memory g * 1024 ^ 3 in
        let memory :=
          if on_platform h "darwin" then max_memory g * 1024 ^ 6 else memory in
        if on_platform h "windows"
        then [SetProcessWorkingSetSize (-1) memory memory]
        else [Setrlimit memory memory]).

Definition is_memory_growth (c : resource_call) : bool :=
  match c with SetMemoryGrowth _ _ => true | _ => false end.

(* ===================================================================== *)
(** ** The component registry of [roop/uis/core.py] *)
(* ===================================================================== *)

Section Registry.

(** The type of the user-interface components. *)
Variable Component : Type.

(** [COMPONENTS]: a [dict], as the list of its items in insertion
    order. *)
Definition components : Type := list (string * Component).

(** [d[name]], [None] standing for [KeyError]. *)
Fixpoint dict_get (d : components) (name : string) : option Component :=
  match d with
  | [] => None
  | (k, v) :: d' => if (k =? name)%string then Some v else dict_get d' name
  end.

(** [d[name] = component]: the value of an existing key is replaced in
    place, a new key is added at the end. *)
Fixpoint dict_set (d : components) (name : string) (component : Component)
  : components :=
  match d with
  | [] => [(name, component)]
  | (k, v) :: d' =>
      if (k =? name)%string then (k, component) :: d'
      else (k, v) :: dict_set d' name component
  end.

(** The result of [get_component]: the component or the [KeyError]. *)
Inductive lookup : Type :=
| Found (component : Component)
| KeyError (name : string).

Definition get_component (COMPONENTS : components) (name : string) : lookup :=
  match dict_get COMPONENTS name with
  | Some component => Found component
  | None => KeyError name
  end.

Definition register_component (COMPONENTS : components) (name : string)
    (component : Component) : components :=
  dict_set COMPONENTS name component.

(** A sequence of calls to [register_component], from the empty
    [COMPONENTS] of a fresh module. *)
Definition register_all (calls : list (string * Component)) : components :=
  fold_left (fun d call => register_component d (fst call) (snd call)) calls [].

(** The component of the last call that registered [name]. *)
Fixpoint last_registered (calls : list (string * Component)) (name : string)
  : option Component :=
  match calls with
  | [] => None
  | (k, v) :: calls' =>
      match last_registered calls' name with
      | Some later => Some later
      | None => if (k =? name)%string then Some v else None
      end
  end.

End Registry.

Arguments Found {Component} component.
Arguments KeyError {Component} name.

(* ===================================================================== *)
(** ** Further observations on traces *)
(* ===================================================================== *)

Definition is_status (e : event) : bool :=
  match e with Status _ => true | _ => false end.

Definition is_clean_temp (e : event) : bool :=
  match e with CleanTemp _ => true | _ => false end.

(** The events of [conditional_process_video]. *)
Definition is_processing (e : event) : bool :=
  match e with
  | PoolCreate _ | ApplyAsync _ _ _ _ | Get _ | PoolClose | PoolJoin
  | ProcessVideo _ _ _ _ => true
  | _ => false
  end.

(** The [mode] argument an event hands to [process_video]. *)
Definition mode_of (e : event) : option string :=
  match e with
  | ApplyAsync _ _ _ mode => Some mode
  | ProcessVideo _ _ _ mode => Some mode
  | _ => None
  end.

(** An exception other than the [SystemExit] of [quit]. *)
Definition is_failure (e : exn) : bool :=
  match e with
  | SystemExit _ => false
  | _ => true
  end.

(** The three checks at the head of [start]. *)
Definition checks_pass (E : env) (g : globals) : bool :=
  match usable E (source_path g), usable E (target_path g) with
  | Some source, Some _ => get_one_face E source
  | _, _ => false
  end.

(** A host for the examples: [cpus] logical CPUs, no GPU. *)
Definition linux_host (cpus : Z) : host := mkHost "Linux" (Some cpus) [].

(** The conditions under which [conditional_process_video] calls
    [process_video] itself: the division is defined and a GPU vendor is
    set, or there is at most one core, or there are fewer than three
    frames per core. *)
Definition direct (g : globals) (temp_frame_paths : list string) : Prop :=
  cpu_cores g <> 0 /\
  (gpu_vendor g <> None \/
   cpu_cores g <= 1 \/
   Z.of_nat (List.length temp_frame_paths) < 3 * cpu_cores g).

(** The command line [--gpu-vendor nvidia], nothing else. *)
Definition nvidia_command_line : namespace :=
  mkNamespace None None None ["face-swapper"] false true false false
              "libx264" 18 16 4 "cpu" 8 (Some "nvidia").

(** A supported machine but for its CUDA version. *)
Definition machine_with_cuda (version : string) : env :=
  mkEnv (3, 10, 4) (Some "/usr/bin/ffmpeg") ["CPUExecutionProvider"]
        true version 8700
        (fun _ => true) (fun _ => true)
        (fun p => (p =? "target.png")%string)
        (fun p => (p =? "target.png")%string)
        (fun p => (p =? "target.mp4")%string)
        (fun _ => (1 # 10)%Q) (fun _ => [])
        (fun _ => "temp/target.png") (fun _ => true)
        (fun _ => []) (fun _ => "25.0")
        (fun _ _ _ _ => None).

(** A machine whose inference runtime offers ROCM when [roop.core] is
    imported, supported in every other respect, and [roop.globals] on
    that machine before [parse_args]. *)
Definition rocm_machine : env :=
  mkEnv (3, 10, 4) (Some "/usr/bin/ffmpeg")
        ["ROCMExecutionProvider"; "CPUExecutionProvider"]
        true "11.8" 8700
        (fun _ => true) (fun _ => true)
        (fun p => (p =? "target.png")%string)
        (fun p => (p =? "target.png")%string)
        (fun p => (p =? "target.mp4")%string)
        (fun _ => (1 # 10)%Q) (fun _ => [])
        (fun _ => "temp/target.png") (fun _ => true)
        (fun _ => []) (fun _ => "25.0")
        (fun _ _ _ _ => None).

Definition globals_rocm : globals :=
  mkGlobals None None None [] None false false false false "" 0 0 0 0
            ["ROCMExecutionProvider"; "CPUExecutionProvider"] None.

(* ===================================================================== *)
(** * Properties *)
(* ===================================================================== *)

(* ===================================================================== *)
(** ** [parse_args] *)
(* ===================================================================== *)

(** Without [--gpu-vendor] the last statement of [parse_args] assigns the
    CPU provider, whatever [--execution-provider] was. *)
Lemma parse_args_no_vendor (g0 : globals) (args : namespace) :
  Py.truthy (ns_gpu_vendor args) = false ->
  providers (parse_args g0 args) = ["CPUExecutionProvider"].
Proof.
  intros Hv. unfold parse_args. rewrite Hv. reflexivity.
Qed.

(** C1 (the code departs from the claim): on the command line
    [--execution-provider directml] with no [--gpu-vendor], [parse_args]
    leaves [roop.globals.providers] equal to [['CPUExecutionProvider']]:
    the DirectML provider assigned first is overwritten by the [else]
    branch of the [gpu_vendor] test, so ['DmlExecutionProvider'] is not in
    the list when [parse_args] returns, while [gpu_vendor] stays
    ['other']. *)
Theorem C1_directml_overwritten_by_cpu :
  ns_execution_provider directml_command_line = "directml" /\
  ns_gpu_vendor directml_command_line = None /\
  providers (parse_args globals_dml directml_command_line)
    = ["CPUExecutionProvider"] /\
  Py.contains "DmlExecutionProvider"
    (providers (parse_args globals_dml directml_command_line)) = false /\
  gpu_vendor (parse_args globals_dml directml_command_line) = Some "other".
Proof.
  repeat split.
Qed.

(* ===================================================================== *)
(** ** The slices of the pooled branch *)
(* ===================================================================== *)

Section Slices.

Context {A : Type}.

Lemma firstn_min_length (n : nat) (l : list A) :
  firstn (Nat.min n (List.length l)) l = firstn n l.
Proof.
  destruct (Nat.le_ge_cases n (List.length l)) as [H | H].
  - now rewrite Nat.min_l.
  - rewrite Nat.min_r by assumption.
    now rewrite firstn_all, firstn_all2.
Qed.

Lemma firstn_plus (a b : nat) (l : list A) :
  firstn (a + b) l = firstn a l ++ firstn b (skipn a l).
Proof.
  revert l. induction a as [| a IH]; intros l.
  - reflexivity.
  - destruct l as [| x l].
    + simpl. now rewrite firstn_nil.
    + simpl. now rewrite IH.
Qed.

(** A slice with non-negative bounds [i <= i + n] is [n] elements after
    the first [i]. *)
Lemma slice_window (l : list A) (i n : Z) :
  0 <= i -> 0 <= n ->
  Py.slice l i (i + n) = firstn (Z.to_nat n) (skipn (Z.to_nat i) l).
Proof.
  intros Hi Hn. unfold Py.slice, Py.clamp.
  destruct (Z.ltb_spec i 0) as [? | _]; [lia |].
  destruct (Z.ltb_spec (i + n) 0) as [? | _]; [lia |].
  destruct (Z.le_gt_cases (Z.of_nat (List.length l)) i) as [Hout | Hin].
  - rewrite (skipn_all2 (n := Z.to_nat i)) by lia.
    rewrite skipn_all2 by lia.
    now rewrite !firstn_nil.
  - rewrite (Z.min_l i) by lia.
    rewrite <- (firstn_min_length (Z.to_nat n)).
    f_equal. rewrite length_skipn. lia.
Qed.

(** Consecutive windows of width [p] make up a prefix. *)
Lemma concat_windows (p : nat) (l : list A) (n : nat) :
  List.concat (map (fun k => firstn p (skipn (k * p) l)) (seq 0 n))
  = firstn (n * p) l.
Proof.
  induction n as [| n IH].
  - reflexivity.
  - rewrite seq_S, map_app, concat_app, IH. simpl.
    rewrite app_nil_r.
    replace (p + n * p)%nat with (n * p + p)%nat by lia.
    now rewrite firstn_plus.
Qed.

End Slices.

(** The number of turns of the submission loop. *)
Lemma range_length (stop step : Z) :
  List.length (Py.range 0 stop step) = Z.to_nat ((stop + step - 1) / step).
Proof.
  unfold Py.range. rewrite length_map, length_seq.
  f_equal. f_equal. lia.
Qed.

(** The slices are windows of width [pool_amount]. *)
Lemma pool_slices_windows (l : list string) (pool_amount : Z) :
  1 <= pool_amount ->
  pool_slices l pool_amount
  = map (fun k => firstn (Z.to_nat pool_amount)
                         (skipn (k * Z.to_nat pool_amount) l))
        (seq 0 (Z.to_nat ((Z.of_nat (List.length l) + pool_amount - 1)
                          / pool_amount))).
Proof.
  intros Hp. unfold pool_slices, Py.range. rewrite map_map.
  replace (Z.of_nat (List.length l) - 0 + pool_amount - 1)
    with (Z.of_nat (List.length l) + pool_amount - 1) by lia.
  apply map_ext. intros k.
  rewrite slice_window by lia.
  do 2 f_equal. lia.
Qed.

Lemma pool_slices_length (l : list string) (pool_amount : Z) :
  List.length (pool_slices l pool_amount)
  = Z.to_nat ((Z.of_nat (List.length l) + pool_amount - 1) / pool_amount).
Proof.
  unfold pool_slices. rewrite length_map, range_length. reflexivity.
Qed.

(** Whatever the width, the slices put end to end give back the list. *)
Lemma pool_slices_concat (l : list string) (pool_amount : Z) :
  1 <= pool_amount ->
  List.concat (pool_slices l pool_amount) = l.
Proof.
  intros Hp. rewrite pool_slices_windows by assumption.
  rewrite concat_windows. apply firstn_all2.
  set (len := Z.of_nat (List.length l)).
  assert (Hlen : 0 <= len) by (subst len; lia).
  assert (Hq : len <= (len + pool_amount - 1) / pool_amount * pool_amount).
  { pose proof (Z.div_mod (len + pool_amount - 1) pool_amount ltac:(lia)) as Hdm.
    pose proof (Z.mod_pos_bound (len + pool_amount - 1) pool_amount ltac:(lia)).
    lia. }
  assert (Hq0 : 0 <= (len + pool_amount - 1) / pool_amount)
    by (apply Z.div_pos; lia).
  apply Nat2Z.inj_le. rewrite Nat2Z.inj_mul, !Z2Nat.id by lia.
  exact Hq.
Qed.

(* ===================================================================== *)
(** ** The two loops of the pooled branch *)
(* ===================================================================== *)

Ltac step_monad :=
  unfold bind, ret, emit, raise, read, write, when, quit; cbn [fst snd].

(** A computation that returns without a trace or a change of globals
    hands over to its continuation. *)
Lemma bind_emit {B : Type} (e : event) (k : M B) (g : globals) :
  bind (emit e) (fun _ => k) g
  = (result_of (k g), globals_of (k g), e :: trace_of (k g)).
Proof.
  unfold bind, emit, result_of, globals_of, trace_of.
  destruct (k g) as [[r g'] t]. reflexivity.
Qed.

Lemma bind_read {B : Type} (k : globals -> M B) (g : globals) :
  bind read k g = k g g.
Proof.
  unfold bind, read. destruct (k g g) as [[r g'] t]. reflexivity.
Qed.

(** The run of a sequence, from the run of its first part. *)
Lemma bind_run {A B : Type} (m : M A) (f : A -> M B) (g g1 : globals)
    (r : outcome A) (t1 : list event) :
  m g = (r, g1, t1) ->
  bind m f g
  = match r with
    | Ret a => (result_of (f a g1), globals_of (f a g1), t1 ++ trace_of (f a g1))
    | Raise e => (Raise e, g1, t1)
    end.
Proof.
  intros H. unfold bind, result_of, globals_of, trace_of. rewrite H.
  destruct r as [a | e]; [| reflexivity].
  destruct (f a g1) as [[r' g2] t2]. reflexivity.
Qed.

Lemma triple_eta {A : Type} (r : outcome A * globals * list event) :
  (result_of r, globals_of r, trace_of r) = r.
Proof. destruct r as [[o g] t]. reflexivity. Qed.

Section Loops.

Variable E : env.
Variable p : processor.
Variable source : option string.
Variable frames : list string.
Variable pool_amount : Z.

(** The first loop submits one task per index and never raises. *)
Lemma submit_loop (indices : list Z) (pools : list async_result) (g : globals) :
  for_acc indices pools
    (fun pools i =>
       bind (apply_async E p source (Py.slice frames i (i + pool_amount))
               "cpu" (List.length pools))
            (fun pool => ret (pools ++ [pool]))) g
  = (Ret (pools ++ number_from (List.length pools)
                   (map (fun i => video_fault E p source
                                    (Py.slice frames i (i + pool_amount)) "cpu")
                        indices)),
     g,
     map (fun i => ApplyAsync p source (Py.slice frames i (i + pool_amount)) "cpu")
         indices).
Proof.
  revert pools. induction indices as [| i indices IH]; intros pools.
  - cbn. now rewrite app_nil_r.
  - cbn [for_acc map number_from]. unfold bind at 1.
    unfold apply_async at 1. step_monad.
    rewrite IH. rewrite length_app, Nat.add_1_r, <- app_assoc.
    reflexivity.
Qed.

(** The second loop calls [get] in submission order and stops at the
    first task that raised. *)
Lemma get_loop (faults : list (option string)) (k : nat) (g : globals) :
  for_each (number_from k faults) get g
  = (fst (get_all k faults), g, snd (get_all k faults)).
Proof.
  revert k. induction faults as [| f faults IH]; intros k.
  - reflexivity.
  - cbn [number_from for_each get_all]. unfold bind at 1, get at 1.
    destruct f as [e |]; step_monad; cbn.
    + reflexivity.
    + rewrite IH. destruct (get_all (S k) faults) as [r t]. reflexivity.
Qed.

End Loops.

Lemma get_all_first_fault (faults : list (option string)) (k : nat) :
  get_all k faults
  = match first_fault k faults with
    | None => (Ret tt, map Get (seq k (List.length faults)))
    | Some (j, e) => (Raise (WorkerError e), map Get (seq k (S j - k)))
    end.
Proof.
  revert k. induction faults as [| f faults IH]; intros k.
  - reflexivity.
  - cbn [get_all first_fault]. destruct f as [e |].
    + replace (S k - k)%nat with 1%nat by lia. reflexivity.
    + rewrite IH. destruct (first_fault (S k) faults) as [[j e] |] eqn:Hf.
      * assert (Hj : (S k <= j)%nat).
        { clear IH. revert k Hf. induction faults as [| f' faults' IH']; intros k Hf.
          - discriminate.
          - cbn in Hf. destruct f' as [e' |].
            + injection Hf as <- _. lia.
            + apply IH' in Hf. lia. }
        replace (S j - k)%nat with (S (S j - S k)) by lia. reflexivity.
      * reflexivity.
Qed.

Lemma first_fault_bounds (faults : list (option string)) (k j : nat) (e : string) :
  first_fault k faults = Some (j, e) ->
  (k <= j)%nat /\
  nth_error faults (j - k) = Some (Some e) /\
  forall i, (i < j - k)%nat -> nth_error faults i = Some None.
Proof.
  revert k. induction faults as [| f faults IH]; intros k Hf.
  - discriminate.
  - cbn in Hf. destruct f as [e' |].
    + injection Hf as <- <-. rewrite Nat.sub_diag. repeat split; auto.
      intros i Hi. lia.
    + apply IH in Hf. destruct Hf as (Hle & Hnth & Hbefore).
      replace (j - k)%nat with (S (j - S k)) by lia.
      repeat split; [lia | exact Hnth |].
      intros [| i] Hi; [reflexivity |]. apply Hbefore. lia.
Qed.

Lemma first_fault_none (faults : list (option string)) (k : nat) :
  first_fault k faults = None <-> Forall (fun f => f = None) faults.
Proof.
  revert k. induction faults as [| f faults IH]; intros k; cbn.
  - split; auto.
  - destruct f as [e |].
    + split; [discriminate |]. intros H. inversion H. discriminate.
    + rewrite IH. split; intros H.
      * now constructor.
      * now inversion H.
Qed.

(* ===================================================================== *)
(** ** [conditional_process_video] *)
(* ===================================================================== *)

Section Conditional.

Variable E : env.
Variable p : processor.
Variable source : string.
Variable frames : list string.
Variable g : globals.

(** The pooled branch, in closed form. *)
Lemma pooled_run :
  pooled g frames ->
  conditional_process_video E p source frames g
  = (fst (get_all 0 (chunk_faults E p source frames g)), g,
     PoolCreate (cpu_cores g) :: chunk_events p source frames g
     ++ snd (get_all 0 (chunk_faults E p source frames g))
     ++ match fst (get_all 0 (chunk_faults E p source frames g)) with
        | Ret _ => [PoolClose; PoolJoin]
        | Raise _ => []
        end).
Proof.
  intros (Hpa & Hc & Hv). unfold conditional_process_video.
  rewrite bind_read.
  destruct (Z.eqb_spec (cpu_cores g) 0) as [? | _]; [lia |].
  destruct (Z.gtb_spec (Z.of_nat (List.length frames) / cpu_cores g) 2)
    as [_ | ?]; [| lia].
  destruct (Z.gtb_spec (cpu_cores g) 1) as [_ | ?]; [| lia].
  rewrite Hv. cbn [andb is_none].
  rewrite bind_emit.
  rewrite (bind_run _ _ _ _ _ _ (submit_loop E p (Some source) frames _ _ [] g)).
  cbn [app List.length].
  rewrite (bind_run _ _ _ _ _ _ (get_loop _ 0 g)).
  unfold chunk_faults, chunk_events, chunks, pool_slices.
  rewrite !map_map.
  destruct (get_all 0 _) as [[[] | e] t]; cbn; rewrite ?app_nil_r; reflexivity.
Qed.

(** The other branch, when the division is defined. *)
Lemma direct_run :
  cpu_cores g <> 0 ->
  (Z.of_nat (List.length frames) / cpu_cores g >? 2)
  && (cpu_cores g >? 1) && is_none (gpu_vendor g) = false ->
  conditional_process_video E p source frames g
  = call_process_video E p (source_path g) frames "gpu" g.
Proof.
  intros Hc Hb. unfold conditional_process_video. rewrite bind_read.
  destruct (Z.eqb_spec (cpu_cores g) 0) as [? | _]; [contradiction |].
  now rewrite Hb.
Qed.

End Conditional.

(* ===================================================================== *)
(** ** Observations on the trace of the pooled branch *)
(* ===================================================================== *)

Lemma submissions_app (a b : list event) :
  submissions (a ++ b) = (submissions a + submissions b)%nat.
Proof. unfold submissions. now rewrite filter_app, length_app. Qed.

Lemma submissions_gets (l : list nat) : submissions (map Get l) = 0%nat.
Proof. induction l as [| k l IH]; [reflexivity | exact IH]. Qed.

Lemma submissions_chunk_events (p : processor) (source : string)
    (frames : list string) (g : globals) :
  submissions (chunk_events p source frames g) = List.length (chunks frames g).
Proof.
  unfold chunk_events, submissions.
  induction (chunks frames g) as [| c l IH]; [reflexivity |].
  cbn. now rewrite IH.
Qed.

Lemma retrieved_app (a b : list event) :
  retrieved (a ++ b) = retrieved a ++ retrieved b.
Proof.
  induction a as [| e a IH]; [reflexivity |].
  destruct e; cbn; rewrite IH; reflexivity.
Qed.

Lemma retrieved_gets (l : list nat) : retrieved (map Get l) = l.
Proof. induction l as [| k l IH]; [reflexivity | cbn; now rewrite IH]. Qed.

Lemma retrieved_chunk_events (p : processor) (source : string)
    (frames : list string) (g : globals) :
  retrieved (chunk_events p source frames g) = [].
Proof.
  unfold chunk_events.
  induction (chunks frames g) as [| c l IH]; [reflexivity | exact IH].
Qed.

Lemma pool_creations_chunk_events (p : processor) (source : string)
    (frames : list string) (g : globals) :
  filter is_pool_create (chunk_events p source frames g) = [].
Proof.
  unfold chunk_events.
  induction (chunks frames g) as [| c l IH]; [reflexivity | exact IH].
Qed.

Lemma pool_creations_gets (l : list nat) : filter is_pool_create (map Get l) = [].
Proof. induction l as [| k l IH]; [reflexivity | exact IH]. Qed.

Lemma work_app (p : processor) (a b : list event) :
  work p (a ++ b) = work p a ++ work p b.
Proof.
  induction a as [| e a IH]; [reflexivity |].
  destruct e; cbn; rewrite IH; try reflexivity; now rewrite app_assoc.
Qed.

Lemma work_gets (p : processor) (l : list nat) : work p (map Get l) = [].
Proof. induction l as [| k l IH]; [reflexivity | exact IH]. Qed.

Lemma processor_eqb_refl (p : processor) : processor_eqb p p = true.
Proof. now destruct p. Qed.

Lemma work_chunk_events (p : processor) (source : string)
    (frames : list string) (g : globals) :
  work p (chunk_events p source frames g)
  = map (pair (Some source)) (List.concat (chunks frames g)).
Proof.
  unfold chunk_events.
  induction (chunks frames g) as [| c l IH]; [reflexivity |].
  cbn. now rewrite processor_eqb_refl, IH, map_app.
Qed.

(** Every task submitted is retrieved when each index below the number
    of submissions was passed to [get]. *)
Lemma all_retrieved (n : nat) :
  filter (fun k => negb (existsb (Nat.eqb k) (seq 0 n))) (seq 0 n) = [].
Proof.
  assert (H : forall l : list nat,
             (forall k, In k l -> In k (seq 0 n)) ->
             filter (fun k => negb (existsb (Nat.eqb k) (seq 0 n))) l = []).
  { induction l as [| k l IH]; intros Hin; [reflexivity |].
    cbn. replace (existsb (Nat.eqb k) (seq 0 n)) with true.
    - apply IH. intros j Hj. apply Hin. now right.
    - symmetry. apply existsb_exists. exists k. split.
      + apply Hin. now left.
      + apply Nat.eqb_refl. }
  apply H. auto.
Qed.

(** The trace of the pooled branch: the submissions, then a prefix of the
    calls to [get], then the end of the pool when no task raised. *)
Lemma pooled_trace (E : env) (p : processor) (source : string)
    (frames : list string) (g : globals) :
  pooled g frames ->
  exists (n : nat) (rest : list event),
    trace_of (conditional_process_video E p source frames g)
    = PoolCreate (cpu_cores g) :: chunk_events p source frames g
      ++ map Get (seq 0 n) ++ rest
    /\ (rest = [] \/ rest = [PoolClose; PoolJoin]).
Proof.
  intros Hp. rewrite pooled_run by assumption. unfold trace_of. cbn [snd].
  rewrite get_all_first_fault.
  destruct (first_fault 0 _) as [[j e] |]; cbn [fst snd]; eauto.
Qed.

(** The count of chunks: [cpu_cores] full ones and the chunks of the
    remainder. *)
Lemma chunk_count (frames : list string) (g : globals) :
  pooled g frames ->
  Z.of_nat (List.length (chunks frames g))
  = cpu_cores g
    + (Z.of_nat (List.length frames) mod cpu_cores g
       + Z.of_nat (List.length frames) / cpu_cores g - 1)
      / (Z.of_nat (List.length frames) / cpu_cores g).
Proof.
  intros (Hpa & Hc & _). unfold chunks. rewrite pool_slices_length.
  set (len := Z.of_nat (List.length frames)) in *.
  set (c := cpu_cores g) in *.
  assert (Hlen : len = c * (len / c) + len mod c) by (apply Z.div_mod; lia).
  pose proof (Z.mod_pos_bound len c ltac:(lia)) as Hr.
  replace (len + len / c - 1) with (c * (len / c) + (len mod c + len / c - 1)) by lia.
  rewrite Z.div_add_l by lia.
  rewrite Z2Nat.id; [reflexivity |].
  assert (0 <= (len mod c + len / c - 1) / (len / c)) by (apply Z.div_pos; lia).
  lia.
Qed.

(** C2 (amended): in the pooled branch of [conditional_process_video] the
    pool is created once, with exactly [cpu_cores] processes, and the
    number of chunks submitted is [cpu_cores] plus the number of chunks
    of size [pool_amount] needed for the [len mod cpu_cores] frames left
    over: it is [cpu_cores] exactly when [cpu_cores] divides the number
    of frames. *)
Theorem C2_pool_size_and_chunk_count (E : env) (p : processor)
    (source : string) (frames : list string) (g : globals) :
  pooled g frames ->
  filter is_pool_create
    (trace_of (conditional_process_video E p source frames g))
  = [PoolCreate (cpu_cores g)]
  /\ Z.of_nat (submissions (trace_of (conditional_process_video E p source frames g)))
     = cpu_cores g
       + (Z.of_nat (List.length frames) mod cpu_cores g
          + Z.of_nat (List.length frames) / cpu_cores g - 1)
         / (Z.of_nat (List.length frames) / cpu_cores g)
  /\ (Z.of_nat (submissions (trace_of (conditional_process_video E p source frames g)))
      = cpu_cores g
      <-> Z.of_nat (List.length frames) mod cpu_cores g = 0).
Proof.
  intros Hp.
  destruct (pooled_trace E p source frames g Hp) as (n & rest & Ht & Hrest).
  rewrite Ht.
  assert (Hsub : submissions (PoolCreate (cpu_cores g)
                   :: chunk_events p source frames g ++ map Get (seq 0 n) ++ rest)
                 = List.length (chunks frames g)).
  { change (PoolCreate (cpu_cores g)
              :: chunk_events p source frames g ++ map Get (seq 0 n) ++ rest)
      with ([PoolCreate (cpu_cores g)]
              ++ chunk_events p source frames g ++ map Get (seq 0 n) ++ rest).
    rewrite !submissions_app, submissions_gets, submissions_chunk_events.
    destruct Hrest as [-> | ->]; cbn; lia. }
  rewrite Hsub, chunk_count by assumption.
  split; [| split].
  - cbn [filter is_pool_create].
    rewrite !filter_app, pool_creations_chunk_events, pool_creations_gets.
    destruct Hrest as [-> | ->]; reflexivity.
  - reflexivity.
  - destruct Hp as (Hpa & Hc & _).
    set (len := Z.of_nat (List.length frames)) in *.
    set (c := cpu_cores g) in *.
    pose proof (Z.mod_pos_bound len c ltac:(lia)) as Hr.
    split; intros H.
    + assert (Hz : (len mod c + len / c - 1) / (len / c) = 0) by lia.
      apply Z.div_small_iff in Hz; lia.
    + rewrite H. rewrite Z.div_small by lia. lia.
Qed.

Lemma C2_pool_size_and_chunk_count_witness :
  Z.of_nat (submissions
              (trace_of (conditional_process_video
                           (machine [] (1 # 10) no_fault) FaceSwapper "face.png"
                           (frame_names 8)
                           (configuration "face.png" "target.mp4" 2
                              ["face-swapper"] None))))
  = 2.
Proof.
  pose proof (C2_pool_size_and_chunk_count
                (machine [] (1 # 10) no_fault) FaceSwapper "face.png"
                (frame_names 8)
                (configuration "face.png" "target.mp4" 2 ["face-swapper"] None))
    as H.
  apply H.
  - repeat split.
  - reflexivity.
Defined.

(** C2, as stated, fails: seven frames on two cores are submitted as
    three chunks. *)
Lemma C2_seven_frames_two_cores :
  pooled (configuration "face.png" "target.mp4" 2 ["face-swapper"] None)
         (frame_names 7)
  /\ Z.of_nat (submissions
                 (trace_of (conditional_process_video
                              (machine [] (1 # 10) no_fault) FaceSwapper "face.png"
                              (frame_names 7)
                              (configuration "face.png" "target.mp4" 2
                                 ["face-swapper"] None))))
     <> cpu_cores (configuration "face.png" "target.mp4" 2 ["face-swapper"] None).
Proof.
  split.
  - repeat split.
  - vm_compute. discriminate.
Qed.

(** In the pooled branch, a run in which no task raises returns. *)
Lemma pooled_returns (E : env) (p : processor) (source : string)
    (frames : list string) (g : globals) :
  pooled g frames ->
  Forall (fun f => f = None) (chunk_faults E p source frames g) ->
  result_of (conditional_process_video E p source frames g) = Ret tt.
Proof.
  intros Hp Hnone. rewrite pooled_run by assumption.
  unfold result_of. cbn [fst]. rewrite get_all_first_fault.
  apply first_fault_none with (k := 0%nat) in Hnone. now rewrite Hnone.
Qed.

(** C4: in the pooled branch of [conditional_process_video], a run in
    which no task raises returns, and whenever the function returns its
    trace is the creation of the pool, the submissions, one [get] per
    submitted task in submission order, then [POOL.close()] and
    [POOL.join()]: no submitted task is left unfinished. *)
Theorem C4_all_results_retrieved_before_return (E : env) (p : processor)
    (source : string) (frames : list string) (g : globals) :
  pooled g frames ->
  (Forall (fun f => f = None) (chunk_faults E p source frames g) ->
   result_of (conditional_process_video E p source frames g) = Ret tt)
  /\ (result_of (conditional_process_video E p source frames g) = Ret tt ->
      trace_of (conditional_process_video E p source frames g)
      = PoolCreate (cpu_cores g) :: chunk_events p source frames g
        ++ map Get (seq 0 (List.length (chunks frames g)))
        ++ [PoolClose; PoolJoin]
      /\ retrieved (trace_of (conditional_process_video E p source frames g))
         = seq 0 (submissions
                    (trace_of (conditional_process_video E p source frames g)))
      /\ unfinished (trace_of (conditional_process_video E p source frames g))
         = []).
Proof.
  intros Hp. rewrite pooled_run by assumption.
  unfold result_of, trace_of. cbn [fst snd].
  rewrite get_all_first_fault.
  destruct (first_fault 0 (chunk_faults E p source frames g)) as [[j e] |] eqn:Hf;
    cbn [fst snd].
  - split.
    + intros Hnone. apply first_fault_none with (k := 0%nat) in Hnone. congruence.
    + discriminate.
  - split; [reflexivity |]. intros _.
    assert (Hlen : List.length (chunk_faults E p source frames g)
                   = List.length (chunks frames g))
      by (unfold chunk_faults; apply length_map).
    rewrite Hlen.
    set (n := List.length (chunks frames g)).
    assert (Hsub : submissions
                     (PoolCreate (cpu_cores g) :: chunk_events p source frames g
                      ++ map Get (seq 0 n) ++ [PoolClose; PoolJoin]) = n).
    { change (PoolCreate (cpu_cores g) :: chunk_events p source frames g
              ++ map Get (seq 0 n) ++ [PoolClose; PoolJoin])
        with ([PoolCreate (cpu_cores g)] ++ chunk_events p source frames g
              ++ map Get (seq 0 n) ++ [PoolClose; PoolJoin]).
      rewrite !submissions_app, submissions_gets, submissions_chunk_events.
      cbn. subst n. lia. }
    assert (Hret : retrieved
                     (PoolCreate (cpu_cores g) :: chunk_events p source frames g
                      ++ map Get (seq 0 n) ++ [PoolClose; PoolJoin]) = seq 0 n).
    { cbn [retrieved].
      rewrite !retrieved_app, retrieved_gets, retrieved_chunk_events.
      cbn. now rewrite app_nil_r. }
    split; [reflexivity | split].
    + now rewrite Hsub, Hret.
    + unfold unfinished. rewrite Hsub, Hret. apply all_retrieved.
Qed.

Lemma C4_all_results_retrieved_before_return_witness :
  unfinished
    (trace_of (conditional_process_video
                 (machine [] (1 # 10) no_fault) FaceSwapper "face.png"
                 (frame_names 7)
                 (configuration "face.png" "target.mp4" 2 ["face-swapper"] None)))
  = [].
Proof.
  pose proof (C4_all_results_retrieved_before_return
                (machine [] (1 # 10) no_fault) FaceSwapper "face.png"
                (frame_names 7)
                (configuration "face.png" "target.mp4" 2 ["face-swapper"] None))
    as H.
  assert (Hp : pooled (configuration "face.png" "target.mp4" 2 ["face-swapper"] None)
                      (frame_names 7)) by (repeat split).
  destruct (H Hp) as [_ Hret].
  apply Hret. reflexivity.
Defined.

Lemma in_first_fault (faults : list (option string)) (e0 : string) (k : nat) :
  In (Some e0) faults -> exists j e, first_fault k faults = Some (j, e).
Proof.
  revert k. induction faults as [| f faults IH]; intros k Hin.
  - contradiction.
  - cbn. destruct f as [e |]; [eauto |].
    destruct Hin as [Heq | Hin]; [discriminate |]. now apply IH.
Qed.

(** C5: in the pooled branch of [conditional_process_video], when the
    task of some chunk raises, the function raises the exception of the
    first such task in submission order.  Every chunk was submitted once
    and none again, [get] was called on the tasks up to the failed one
    and on no later one, and nothing follows the failing [get]: no
    handler, no second attempt, no call that ends the pool or the other
    tasks. *)
Theorem C5_worker_exception_propagates (E : env) (p : processor)
    (source : string) (frames : list string) (g : globals)
    (chunk : list string) (e0 : string) :
  pooled g frames ->
  In chunk (chunks frames g) ->
  video_fault E p (Some source) chunk "cpu" = Some e0 ->
  exists (k : nat) (e : string),
    nth_error (chunk_faults E p source frames g) k = Some (Some e)
    /\ (forall i, (i < k)%nat ->
                  nth_error (chunk_faults E p source frames g) i = Some None)
    /\ conditional_process_video E p source frames g
       = (Raise (WorkerError e), g,
          PoolCreate (cpu_cores g) :: chunk_events p source frames g
          ++ map Get (seq 0 (S k))).
Proof.
  intros Hp Hin He0.
  assert (Hfault : In (Some e0) (chunk_faults E p source frames g)).
  { unfold chunk_faults. rewrite <- He0.
    apply (in_map (fun c => video_fault E p (Some source) c "cpu")). exact Hin. }
  destruct (in_first_fault _ _ 0%nat Hfault) as (k & e & Hf).
  exists k, e.
  destruct (first_fault_bounds _ _ _ _ Hf) as (_ & Hnth & Hbefore).
  rewrite Nat.sub_0_r in Hnth, Hbefore.
  split; [exact Hnth | split; [exact Hbefore |]].
  rewrite pooled_run by assumption.
  rewrite get_all_first_fault, Hf. cbn [fst snd].
  now rewrite Nat.sub_0_r, app_nil_r.
Qed.

Lemma C5_worker_exception_propagates_witness :
  exists (k : nat) (e : string),
    nth_error (chunk_faults (machine [] (1 # 10) (fault_on "frame4.png"))
                 FaceSwapper "face.png" (frame_names 7)
                 (configuration "face.png" "target.mp4" 2 ["face-swapper"] None))
              k = Some (Some e)
    /\ (forall i, (i < k)%nat ->
          nth_error (chunk_faults (machine [] (1 # 10) (fault_on "frame4.png"))
                       FaceSwapper "face.png" (frame_names 7)
                       (configuration "face.png" "target.mp4" 2 ["face-swapper"] None))
                    i = Some None)
    /\ conditional_process_video (machine [] (1 # 10) (fault_on "frame4.png"))
         FaceSwapper "face.png" (frame_names 7)
         (configuration "face.png" "target.mp4" 2 ["face-swapper"] None)
       = (Raise (WorkerError e),
          configuration "face.png" "target.mp4" 2 ["face-swapper"] None,
          PoolCreate 2
          :: chunk_events FaceSwapper "face.png" (frame_names 7)
               (configuration "face.png" "target.mp4" 2 ["face-swapper"] None)
          ++ map Get (seq 0 (S k))).
Proof.
  apply (C5_worker_exception_propagates
           (machine [] (1 # 10) (fault_on "frame4.png")) FaceSwapper "face.png"
           (frame_names 7)
           (configuration "face.png" "target.mp4" 2 ["face-swapper"] None)
           ["frame4.png"; "frame5.png"; "frame6.png"] "cannot read frame").
  - repeat split.
  - vm_compute. right. left. reflexivity.
  - reflexivity.
Defined.

(* ===================================================================== *)
(** ** The work of the two branches *)
(* ===================================================================== *)

(** The pooled branch hands every frame, in order, to [process_video]
    with the source image it was given. *)
Lemma pooled_work (E : env) (p : processor) (source : string)
    (frames : list string) (g : globals) :
  pooled g frames ->
  work p (trace_of (conditional_process_video E p source frames g))
  = map (pair (Some source)) frames.
Proof.
  intros Hp.
  destruct (pooled_trace E p source frames g Hp) as (n & rest & Ht & Hrest).
  rewrite Ht.
  change (PoolCreate (cpu_cores g)
            :: chunk_events p source frames g ++ map Get (seq 0 n) ++ rest)
    with ([PoolCreate (cpu_cores g)]
            ++ chunk_events p source frames g ++ map Get (seq 0 n) ++ rest).
  rewrite !work_app, work_gets, work_chunk_events.
  unfold chunks. rewrite pool_slices_concat by (destruct Hp; lia).
  destruct Hrest as [-> | ->]; cbn; now rewrite app_nil_r.
Qed.

(** The direct branch hands every frame, in order, to [process_video]
    with the source image of [roop.globals]. *)
Lemma direct_work (E : env) (p : processor) (source : string)
    (frames : list string) (g : globals) :
  cpu_cores g <> 0 ->
  (Z.of_nat (List.length frames) / cpu_cores g >? 2)
  && (cpu_cores g >? 1) && is_none (gpu_vendor g) = false ->
  work p (trace_of (conditional_process_video E p source frames g))
  = map (pair (source_path g)) frames.
Proof.
  intros Hc Hb. rewrite direct_run by assumption.
  unfold call_process_video. rewrite bind_emit. unfold trace_of at 1.
  cbn [snd work]. rewrite processor_eqb_refl.
  destruct (video_fault E p (source_path g) frames "gpu");
    cbn; now rewrite app_nil_r.
Qed.









(** When the parameter is the source image of [roop.globals], as in the
    calls made by [start], the two branches do the same work. *)
Lemma branches_agree_on_global_source (E : env) (p : processor)
    (source : string) (frames : list string) (g_pool g_direct : globals) :
  source_path g_direct = Some source ->
  pooled g_pool frames ->
  cpu_cores g_direct <> 0 ->
  (Z.of_nat (List.length frames) / cpu_cores g_direct >? 2)
  && (cpu_cores g_direct >? 1) && is_none (gpu_vendor g_direct) = false ->
  work p (trace_of (conditional_process_video E p source frames g_pool))
  = work p (trace_of (conditional_process_video E p source frames g_direct)).
Proof.
  intros Hs Hp Hc Hb.
  rewrite pooled_work by assumption.
  rewrite direct_work by assumption.
  now rewrite Hs.
Qed.

(** C6 (the code departs from the claim): called with the source image
    [face.png] while [roop.globals.source_path] is [other.png], the
    pooled branch (two cores) processes the seven frames with
    [face.png], and the direct branch (one core) processes the same
    frames with [other.png]: the direct branch passes
    [roop.globals.source_path] and not its parameter. *)
Theorem C6_direct_branch_ignores_source_parameter :
  pooled (configuration "other.png" "target.mp4" 2 ["face-swapper"] None)
         (frame_names 7)
  /\ work FaceSwapper
       (trace_of (conditional_process_video
                    (machine [] (1 # 10) no_fault) FaceSwapper "face.png"
                    (frame_names 7)
                    (configuration "other.png" "target.mp4" 2 ["face-swapper"] None)))
     = map (pair (Some "face.png")) (frame_names 7)
  /\ work FaceSwapper
       (trace_of (conditional_process_video
                    (machine [] (1 # 10) no_fault) FaceSwapper "face.png"
                    (frame_names 7)
                    (configuration "other.png" "target.mp4" 1 ["face-swapper"] None)))
     = map (pair (Some "other.png")) (frame_names 7)
  /\ work FaceSwapper
       (trace_of (conditional_process_video
                    (machine [] (1 # 10) no_fault) FaceSwapper "face.png"
                    (frame_names 7)
                    (configuration "other.png" "target.mp4" 2 ["face-swapper"] None)))
     <> work FaceSwapper
          (trace_of (conditional_process_video
                       (machine [] (1 # 10) no_fault) FaceSwapper "face.png"
                       (frame_names 7)
                       (configuration "other.png" "target.mp4" 1 ["face-swapper"] None))).
Proof.
  split; [repeat split |].
  split; [reflexivity |].
  split; [reflexivity |].
  vm_compute. discriminate.
Qed.

(* ===================================================================== *)
(** ** [pre_check] *)
(* ===================================================================== *)

Lemma below_3_9 (major minor micro : Z) :
  Py.tuple_lt [major; minor; micro] [3; 9]
  = (major <? 3) || ((major =? 3) && (minor <? 9)).
Proof.
  cbn.
  destruct (Z.ltb_spec major 3), (Z.ltb_spec 3 major), (Z.eqb_spec major 3),
    (Z.ltb_spec minor 9), (Z.ltb_spec 9 minor); try lia; reflexivity.
Qed.

Lemma str_leb_ltb (a b : string) : String.leb a b = negb (String.ltb b a).
Proof.
  unfold String.leb, String.ltb. rewrite (String.compare_antisym b a).
  now destruct (String.compare a b).
Qed.

(** A guarded [quit] either ends the run or lets it go on. *)
Lemma when_quit_bind {B : Type} (c : bool) (message : option string)
    (k : M B) (g : globals) :
  bind (when c (quit message)) (fun _ => k) g
  = if c then (Raise (SystemExit message), g, []) else k g.
Proof.
  destruct c; unfold bind, when, quit, raise, ret; cbn.
  - reflexivity.
  - now destruct (k g) as [[r g'] t].
Qed.

Lemma when_quit_last (c : bool) (message : option string) (g : globals) :
  when c (quit message) g
  = if c then (Raise (SystemExit message), g, []) else (Ret tt, g, []).
Proof. now destruct c. Qed.

Lemma when_when (c d : bool) (body : M unit) :
  when c (when d body) = when (c && d) body.
Proof. now destruct c, d. Qed.

Lemma when_bind {B : Type} (c : bool) (body : M unit) (k : M B) (g : globals) :
  bind (when c body) (fun _ => k) g
  = if c then bind body (fun _ => k) g else k g.
Proof.
  destruct c; [reflexivity |].
  unfold bind, when, ret. now destruct (k g) as [[r g'] t].
Qed.

(** The name [torch], bound and unbound. *)
Lemma lookup_torch_bound {B : Type} (E : env) (k : M B) (g : globals) :
  torch_deleted E = false ->
  bind (lookup_torch E) (fun _ => k) g = k g.
Proof.
  intros H. unfold lookup_torch. rewrite H.
  unfold bind, ret. now destruct (k g) as [[r g'] t].
Qed.

Lemma lookup_torch_unbound {B : Type} (E : env) (k : unit -> M B) (g : globals) :
  torch_deleted E = true ->
  bind (lookup_torch E) k g = (Raise (NameError "torch"), g, []).
Proof. intros H. unfold lookup_torch, bind. now rewrite H. Qed.

(** With the vendor ['nvidia'] on a machine that passes the checks of
    Python and [ffmpeg], [pre_check] evaluates the name [torch]: when the
    import of the module deleted it, [NameError] is raised. *)
Lemma pre_check_name_error (E : env) (g : globals) :
  python_below_3_9 E = false ->
  ffmpeg_missing E = false ->
  gpu_vendor g = Some "nvidia" ->
  torch_deleted E = true ->
  pre_check E g = (Raise (NameError "torch"), g, []).
Proof.
  intros Hpy Hff Hv Htorch.
  unfold python_below_3_9, ffmpeg_missing in *.
  unfold pre_check, version_tuple.
  destruct (version_info E) as [[major minor] micro].
  rewrite below_3_9, Hpy, when_quit_bind, when_quit_bind, Hff, bind_read, Hv.
  change (is_str (Some "nvidia") "apple") with false.
  change (is_str (Some "nvidia") "amd") with false.
  change (is_str (Some "nvidia") "nvidia") with true.
  rewrite !when_bind. cbv iota. unfold when at 1.
  now apply lookup_torch_unbound.
Qed.

(** Where the name [torch] is bound whenever the vendor is ['nvidia'],
    [pre_check] quits with a message, before any other effect, exactly
    when the environment is unsupported, and returns otherwise. *)
Lemma pre_check_quits_iff_unsupported (E : env) (g : globals) :
  is_str (gpu_vendor g) "nvidia" && torch_deleted E = false ->
  if unsupported E g
  then exists message : string,
         pre_check E g = (Raise (SystemExit (Some message)), g, [])
  else pre_check E g = (Ret tt, g, []).
Proof.
  intros Hbound.
  unfold unsupported, python_below_3_9, ffmpeg_missing, accelerator_unavailable,
    cuda_in_range, cudnn_in_range, cuda_is_available, pre_check, version_tuple.
  destruct (version_info E) as [[major minor] micro].
  rewrite below_3_9, !str_leb_ltb.
  rewrite (Z.leb_antisym (cudnn_version E) 8220).
  rewrite (Z.leb_antisym 8910 (cudnn_version E)).
  rewrite Z.gtb_ltb.
  unfold Py.str_gt, Py.str_lt.
  rewrite when_quit_bind.
  destruct ((major <? 3) || ((major =? 3) && (minor <? 9))); cbn [orb];
    [eexists; reflexivity |].
  rewrite when_quit_bind.
  destruct (negb (Py.truthy (which_ffmpeg E))); cbn [orb];
    [eexists; reflexivity |].
  rewrite bind_read, !when_when, !when_quit_bind.
  destruct (is_str (gpu_vendor g) "apple"
            && negb (Py.contains "CoreMLExecutionProvider" (providers g)));
    cbn [orb]; [eexists; reflexivity |].
  destruct (is_str (gpu_vendor g) "amd"
            && negb (Py.contains "ROCMExecutionProvider" (providers g)));
    cbn [orb]; [eexists; reflexivity |].
  destruct (is_str (gpu_vendor g) "nvidia"); cbn [when andb] in *;
    [| reflexivity].
  rewrite Hbound. cbn [negb andb].
  rewrite lookup_torch_bound, when_quit_bind by assumption.
  destruct (torch_cuda_is_available E); cbn [negb orb]; [| eexists; reflexivity].
  rewrite lookup_torch_bound, when_quit_bind by assumption.
  destruct (String.ltb "11.8" (cuda_version E)); cbn [negb andb orb];
    [rewrite andb_false_r; eexists; reflexivity |].
  rewrite lookup_torch_bound, when_quit_bind by assumption.
  destruct (String.ltb (cuda_version E) "11.4"); cbn [negb andb orb];
    [eexists; reflexivity |].
  rewrite lookup_torch_bound, when_quit_bind by assumption.
  destruct (cudnn_version E <? 8220); cbn [negb andb orb];
    [eexists; reflexivity |].
  rewrite lookup_torch_bound, when_quit_last by assumption.
  destruct (8910 <? cudnn_version E); cbn [negb andb orb];
    [eexists; reflexivity | reflexivity].
Qed.

(** C7 (the code departs from the claim): on a machine whose providers
    include ROCM when [roop.core] is imported, the import deletes the
    name [torch]; with Python 3.10 and [ffmpeg] installed, the command
    line [--gpu-vendor nvidia] then makes [pre_check] raise [NameError]
    where it evaluates [torch.cuda.is_available()].  CUDA is not
    available to the program, so the environment is unsupported, but
    [pre_check] neither quits with its message nor returns; [run] ends
    with the same [NameError].  On every machine where [torch] is bound
    when the vendor is ['nvidia'], the claim holds (lemma
    [pre_check_quits_iff_unsupported]). *)
Theorem C7_pre_check_name_error_when_torch_deleted :
  torch_deleted rocm_machine = true
  /\ gpu_vendor (parse_args globals_rocm nvidia_command_line) = Some "nvidia"
  /\ unsupported rocm_machine (parse_args globals_rocm nvidia_command_line) = true
  /\ pre_check rocm_machine (parse_args globals_rocm nvidia_command_line)
     = (Raise (NameError "torch"),
        parse_args globals_rocm nvidia_command_line, [])
  /\ run rocm_machine nvidia_command_line globals_rocm
     = (Raise (NameError "torch"),
        parse_args globals_rocm nvidia_command_line, []).
Proof.
  repeat split.
Qed.

(** On versions [major.minor] with a one-digit minor, the order on strings
    used by [pre_check] agrees with the numeric range 11.4 to 11.8. *)
Lemma cuda_range_numeric (major minor : Z) :
  0 <= major < 100 -> 0 <= minor < 10 ->
  cuda_in_range (version_string major minor)
  = cuda_numeric_in_range major minor.
Proof.
  intros Hmajor Hminor.
  assert (Hall : forallb
                   (fun a => forallb
                      (fun b => Bool.eqb
                         (cuda_in_range (version_string (Z.of_nat a) (Z.of_nat b)))
                         (cuda_numeric_in_range (Z.of_nat a) (Z.of_nat b)))
                      (seq 0 10))
                   (seq 0 100) = true) by (vm_compute; reflexivity).
  rewrite forallb_forall in Hall.
  specialize (Hall (Z.to_nat major)).
  rewrite forallb_forall in Hall by (apply in_seq; lia).
  specialize (Hall ltac:(apply in_seq; lia) (Z.to_nat minor) ltac:(apply in_seq; lia)).
  rewrite !Z2Nat.id in Hall by lia.
  now apply Bool.eqb_prop.
Qed.

(* ===================================================================== *)
(** ** [start] and [destroy] *)
(* ===================================================================== *)

Lemma usable_some (E : env) (o : option string) (s : string) :
  usable E o = Some s ->
  o = Some s /\ (s =? "")%string = false /\ isfile E s = true.
Proof.
  unfold usable. destruct o as [s' |]; [| discriminate].
  destruct (s' =? "")%string eqn:He; cbn; [discriminate |].
  destruct (isfile E s') eqn:Hf; [| discriminate].
  intros H. injection H as <-. auto.
Qed.

(** [destroy] removes the temporary files of the target, then quits. *)
Lemma destroy_run (g : globals) (target : string) :
  target_path g = Some target ->
  (target =? "")%string = false ->
  destroy g = (Raise (SystemExit None), g, [CleanTemp target]).
Proof.
  intros Ht He. unfold destroy. rewrite bind_read, Ht, He. reflexivity.
Qed.

(** [conditional_process_video] leaves [roop.globals] as it is. *)
Lemma conditional_process_video_globals (E : env) (p : processor)
    (source : string) (frames : list string) (g : globals) :
  globals_of (conditional_process_video E p source frames g) = g.
Proof.
  unfold conditional_process_video. rewrite bind_read.
  destruct (cpu_cores g =? 0); [reflexivity |].
  destruct ((Z.of_nat (List.length frames) / cpu_cores g >? 2)
            && (cpu_cores g >? 1) && is_none (gpu_vendor g)) eqn:Hb.
  - rewrite bind_emit. unfold globals_of at 1. cbn [fst snd].
    rewrite (bind_run _ _ _ _ _ _ (submit_loop E p (Some source) frames _ _ [] g)).
    unfold globals_of at 1. cbn [fst snd app List.length].
    rewrite (bind_run _ _ _ _ _ _ (get_loop _ 0 g)).
    destruct (fst (get_all 0 _)); reflexivity.
  - unfold call_process_video. rewrite bind_emit.
    unfold globals_of at 1. cbn [fst snd].
    destruct (video_fault E p (source_path g) frames "gpu"); reflexivity.
Qed.

(** It returns when [cpu_cores] is not zero and [process_video] never
    raises. *)
Lemma conditional_process_video_returns (E : env) (p : processor)
    (source : string) (frames : list string) (g : globals) :
  cpu_cores g <> 0 ->
  (forall s c m, video_fault E p s c m = None) ->
  result_of (conditional_process_video E p source frames g) = Ret tt.
Proof.
  intros Hc Hok.
  destruct ((Z.of_nat (List.length frames) / cpu_cores g >? 2)
            && (cpu_cores g >? 1) && is_none (gpu_vendor g)) eqn:Hb.
  - assert (Hp : pooled g frames).
    { apply andb_prop in Hb. destruct Hb as [Hb Hv].
      apply andb_prop in Hb. destruct Hb as [Hpa Hcores].
      repeat split.
      - now apply Z.gtb_gt.
      - now apply Z.gtb_gt.
      - now destruct (gpu_vendor g). }
    apply (pooled_returns E p source frames g Hp).
    unfold chunk_faults. apply Forall_forall. intros f Hin.
    apply in_map_iff in Hin. destruct Hin as (c & <- & _). apply Hok.
  - rewrite direct_run by assumption.
    unfold call_process_video. rewrite bind_emit, Hok. reflexivity.
Qed.




(** Sequencing, stage by stage. *)
Lemma bind_emit_run {B : Type} (e : event) (k : M B) (g g' : globals)
    (r : outcome B) (t : list event) :
  k g = (r, g', t) ->
  bind (emit e) (fun _ => k) g = (r, g', e :: t).
Proof. intros H. unfold bind, emit. now rewrite H. Qed.

Lemma bind_stage {B : Type} (m : M unit) (k : M B) (g g1 g2 : globals)
    (r : outcome B) (t1 t2 : list event) :
  m g = (Ret tt, g1, t1) ->
  k g1 = (r, g2, t2) ->
  bind m (fun _ => k) g = (r, g2, t1 ++ t2).
Proof. intros Hm Hk. unfold bind. now rewrite Hm, Hk. Qed.

Lemma follows_emit (e : event) (k : M unit) (g : globals) (expected : list event) :
  follows (k g) expected ->
  follows (bind (emit e) (fun _ => k) g) (e :: expected).
Proof.
  intros [[rest Hrest] Hret]. rewrite bind_emit.
  unfold follows, result_of, trace_of in *. cbn [fst snd]. split.
  - exists rest. now rewrite Hrest.
  - intros H. now rewrite (Hret H).
Qed.

(** A stage that raises ends the run; one that returns hands over. *)
Lemma follows_stage (m k : M unit) (g : globals) (expected : list event) :
  follows (k (globals_of (m g))) expected ->
  follows (bind m (fun _ => k) g) (trace_of (m g) ++ expected).
Proof.
  intros [[rest Hrest] Hret]. unfold bind.
  destruct (m g) as [[[[] | e] g1] t1];
    unfold follows, result_of, globals_of, trace_of in *; cbn [fst snd] in *.
  - destruct (k g1) as [[r2 g2] t2]. cbn [fst snd] in *. split.
    + exists rest. now rewrite Hrest, app_assoc.
    + intros H. now rewrite (Hret H).
  - split; [now exists expected | discriminate].
Qed.

Lemma follows_run (m k : M unit) (g g1 : globals) (t1 expected : list event) :
  m g = (Ret tt, g1, t1) ->
  follows (k g1) expected ->
  follows (bind m (fun _ => k) g) (t1 ++ expected).
Proof.
  intros Hm Hk.
  replace t1 with (trace_of (m g)) by now rewrite Hm.
  apply follows_stage. now rewrite Hm.
Qed.

Lemma follows_returned (g : globals) (t : list event) : follows (Ret tt, g, t) t.
Proof.
  split; [exists []; cbn; now rewrite app_nil_r | reflexivity].
Qed.

(** A stage that raises before any call ends the run where it stands. *)
Lemma follows_raise (m k : M unit) (g g1 : globals) (e : exn)
    (expected : list event) :
  m g = (Raise e, g1, []) ->
  follows (bind m (fun _ => k) g) expected.
Proof.
  intros Hm. unfold bind. rewrite Hm.
  split; [now exists expected | discriminate].
Qed.

Section VideoStages.

Variable E : env.
Variable g : globals.
Variables source target : string.

(** The two stages that may raise: their trace and their globals. *)
Lemma swap_frames_trace :
  trace_of (swap_frames E source (get_temp_frame_paths E target) g)
  = swap_stage E g source target
  /\ globals_of (swap_frames E source (get_temp_frame_paths E target) g) = g.
Proof.
  unfold swap_frames, swap_stage. rewrite bind_read.
  destruct (Py.contains "face-swapper" (frame_processors g)); [| now split].
  unfold when, update_status. rewrite bind_emit.
  unfold trace_of at 1, globals_of at 1. cbn [fst snd].
  split; [reflexivity | apply conditional_process_video_globals].
Qed.

Lemma enhance_frames_trace :
  trace_of (enhance_frames E source (get_temp_frame_paths E target)
              (set_gpu_threads 1 g))
  = enhance_stage E g source target
  /\ globals_of (enhance_frames E source (get_temp_frame_paths E target)
                   (set_gpu_threads 1 g))
     = set_gpu_threads 1 g.
Proof.
  unfold enhance_frames, enhance_stage. rewrite bind_read.
  cbn [gpu_vendor frame_processors set_gpu_threads].
  destruct (is_str (gpu_vendor g) "nvidia"
            && Py.contains "face-enhancer" (frame_processors g)); [| now split].
  unfold when, update_status. rewrite bind_emit.
  unfold trace_of at 1, globals_of at 1. cbn [fst snd].
  split; [reflexivity | apply conditional_process_video_globals].
Qed.

(** [release_resources] empties the CUDA cache when the vendor is
    ['nvidia'], and raises [NameError] there when the name [torch] was
    deleted. *)
Lemma release_resources_run (g' : globals) :
  gpu_vendor g' = gpu_vendor g ->
  is_str (gpu_vendor g) "nvidia" && torch_deleted E = false ->
  release_resources E g' = (Ret tt, g', release_stage g).
Proof.
  intros Hv Hbound. unfold release_resources, release_stage.
  rewrite bind_read, Hv.
  destruct (is_str (gpu_vendor g) "nvidia"); [| reflexivity].
  cbn [andb] in Hbound. unfold when. unfold lookup_torch. rewrite Hbound.
  reflexivity.
Qed.

Lemma release_resources_unbound (g' : globals) :
  gpu_vendor g' = gpu_vendor g ->
  is_str (gpu_vendor g) "nvidia" && torch_deleted E = true ->
  release_resources E g' = (Raise (NameError "torch"), g', []).
Proof.
  intros Hv Hunbound. unfold release_resources.
  rewrite bind_read, Hv.
  apply andb_prop in Hunbound. destruct Hunbound as [-> Hdeleted].
  unfold when. now apply lookup_torch_unbound.
Qed.

(** The stages that always return. *)

Lemma limit_gpu_threads_run :
  limit_gpu_threads g = (Ret tt, set_gpu_threads 1 g, []).
Proof. reflexivity. Qed.

Lemma reassemble_video_run (g' : globals) :
  keep_fps g' = keep_fps g ->
  reassemble_video E target g' = (Ret tt, g', reassembly_stage E g target).
Proof.
  intros Hk. unfold reassemble_video, reassembly_stage.
  rewrite bind_read, Hk. now destruct (keep_fps g).
Qed.

Lemma restore_audio_or_move_run (g' : globals) :
  keep_fps g' = keep_fps g ->
  keep_audio g' = keep_audio g ->
  output_path g' = output_path g ->
  restore_audio_or_move target g' = (Ret tt, g', audio_stage g target).
Proof.
  intros Hk Ha Ho. unfold restore_audio_or_move, audio_stage.
  rewrite bind_read, Hk, Ha, Ho.
  now destruct (keep_audio g), (keep_fps g).
Qed.

Lemma clean_up_run (g' : globals) :
  clean_up E target g' = (Ret tt, g', cleanup_stage E target).
Proof.
  unfold clean_up, cleanup_stage. now destruct (is_video E target).
Qed.

(** Past the NSFW test, the video branch keeps to the order of the
    stages, whatever [process_video] does. *)
Lemma start_video_follows :
  Py.any above_threshold (predict_video_frames E target) = false ->
  follows (bind (emit (CreateTemp target))
                (fun _ => start_video E source target) g)
          (video_stages E g source target).
Proof.
  intros Hany. unfold start_video, video_stages, extraction_stage.
  rewrite Hany. cbn [app].
  apply follows_emit.
  rewrite when_bind.
  unfold update_status at 1 2.
  do 4 apply follows_emit.
  destruct swap_frames_trace as [<- Hg1].
  apply follows_stage. rewrite Hg1.
  destruct (is_str (gpu_vendor g) "nvidia" && torch_deleted E) eqn:Htorch.
  - eapply follows_raise. now apply release_resources_unbound.
  - eapply follows_run; [now apply release_resources_run |].
    apply (follows_run _ _ _ _ [] _ limit_gpu_threads_run).
    destruct enhance_frames_trace as [<- Hg2].
    apply follows_stage. rewrite Hg2.
    eapply follows_run; [now apply release_resources_run |].
    eapply follows_run; [now apply reassemble_video_run |].
    eapply follows_run; [now apply restore_audio_or_move_run |].
    rewrite clean_up_run. apply follows_returned.
Qed.

Hypothesis cores_not_zero : cpu_cores g <> 0.
Hypothesis no_worker_fault : forall p s c m, video_fault E p s c m = None.
Hypothesis torch_bound : is_str (gpu_vendor g) "nvidia" && torch_deleted E = false.

Lemma conditional_process_video_run (p : processor) (g' : globals) :
  cpu_cores g' = cpu_cores g ->
  conditional_process_video E p source (get_temp_frame_paths E target) g'
  = (Ret tt, g',
     trace_of (conditional_process_video E p source
                 (get_temp_frame_paths E target) g')).
Proof.
  intros Hc.
  rewrite <- (triple_eta (conditional_process_video E p source _ g')) at 1.
  rewrite conditional_process_video_returns, conditional_process_video_globals;
    [reflexivity | congruence | apply no_worker_fault].
Qed.

Lemma swap_frames_run :
  swap_frames E source (get_temp_frame_paths E target) g
  = (Ret tt, g, swap_stage E g source target).
Proof.
  unfold swap_frames, swap_stage. rewrite bind_read.
  destruct (Py.contains "face-swapper" (frame_processors g)); [| reflexivity].
  unfold when, update_status. apply bind_emit_run.
  now apply conditional_process_video_run.
Qed.

Lemma enhance_frames_run :
  enhance_frames E source (get_temp_frame_paths E target) (set_gpu_threads 1 g)
  = (Ret tt, set_gpu_threads 1 g, enhance_stage E g source target).
Proof.
  unfold enhance_frames, enhance_stage. rewrite bind_read.
  cbn [gpu_vendor frame_processors set_gpu_threads].
  destruct (is_str (gpu_vendor g) "nvidia"
            && Py.contains "face-enhancer" (frame_processors g)); [| reflexivity].
  unfold when, update_status. apply bind_emit_run.
  now apply conditional_process_video_run.
Qed.

(** When no stage raises the video branch reaches its end. *)
Lemma start_video_run :
  Py.any above_threshold (predict_video_frames E target) = false ->
  bind (emit (CreateTemp target)) (fun _ => start_video E source target) g
  = (Ret tt, set_gpu_threads 1 g, video_stages E g source target).
Proof.
  intros Hany. unfold start_video, video_stages, extraction_stage.
  rewrite Hany. cbn [app].
  apply bind_emit_run. rewrite when_bind.
  unfold update_status at 1 2.
  do 4 apply bind_emit_run.
  eapply bind_stage; [apply swap_frames_run |].
  eapply bind_stage; [now apply release_resources_run |].
  eapply (bind_stage _ _ _ _ _ _ [] _ limit_gpu_threads_run).
  eapply bind_stage; [apply enhance_frames_run |].
  eapply bind_stage; [now apply release_resources_run |].
  eapply bind_stage; [now apply reassemble_video_run |].
  eapply bind_stage; [now apply restore_audio_or_move_run |].
  apply clean_up_run.
Qed.

End VideoStages.

(** C9 (amended): for a video target that passes the source-face and NSFW
    checks, [start] keeps to this order of stages: frame extraction; face
    swap when ['face-swapper'] is selected; face enhancement when
    ['face-enhancer'] is selected and the GPU vendor is ['nvidia']; video
    reassembly; audio restoration when [keep_audio] is set, else the move
    of the temporary video to the output path; and the cleanup of the
    temporary files of the target.  Every run performs a prefix of these
    stages, every run that returns has performed them all and ended with
    the cleanup, and a run returns when [cpu_cores] is not zero,
    [process_video] does not raise and, with the vendor ['nvidia'], the
    name [torch] is bound when [release_resources] evaluates it. *)
Theorem C9_video_target_stages (E : env) (g : globals) (source target : string) :
  usable E (source_path g) = Some source ->
  usable E (target_path g) = Some target ->
  get_one_face E source = true ->
  has_image_extension E target = false ->
  Py.any above_threshold (predict_video_frames E target) = false ->
  follows (start E g) (video_stages E g source target)
  /\ (cpu_cores g <> 0 ->
      (forall p s c m, video_fault E p s c m = None) ->
      is_str (gpu_vendor g) "nvidia" && torch_deleted E = false ->
      start E g = (Ret tt, set_gpu_threads 1 g, video_stages E g source target)).
Proof.
  intros Hs Ht Hface Hext Hany.
  unfold start. rewrite bind_read, Hs, Ht, Hface. cbn [negb]. rewrite Hext.
  split.
  - now apply start_video_follows.
  - intros Hc Hok Hbound. now apply start_video_run.
Qed.

Lemma C9_video_target_stages_witness :
  start (machine (frame_names 7) (1 # 10) no_fault)
        (configuration "face.png" "target.mp4" 2 ["face-swapper"] None)
  = (Ret tt,
     set_gpu_threads 1
       (configuration "face.png" "target.mp4" 2 ["face-swapper"] None),
     video_stages (machine (frame_names 7) (1 # 10) no_fault)
       (configuration "face.png" "target.mp4" 2 ["face-swapper"] None)
       "face.png" "target.mp4").
Proof.
  apply (proj2 (C9_video_target_stages
                  (machine (frame_names 7) (1 # 10) no_fault)
                  (configuration "face.png" "target.mp4" 2 ["face-swapper"] None)
                  "face.png" "target.mp4" eq_refl eq_refl eq_refl eq_refl eq_refl));
    [discriminate | reflexivity | reflexivity].
Defined.

(** C9, as stated, fails: with ['face-enhancer'] selected and no GPU
    vendor, a video target that passes the checks goes through the whole
    pipeline, the audio is restored and the temporary files are removed,
    and no frame was handed to the face enhancer. *)
Lemma C9_enhancer_selected_but_not_run :
  usable (machine (frame_names 7) (1 # 10) no_fault)
         (source_path (configuration "face.png" "target.mp4" 2
                         ["face-swapper"; "face-enhancer"] None))
  = Some "face.png"
  /\ usable (machine (frame_names 7) (1 # 10) no_fault)
            (target_path (configuration "face.png" "target.mp4" 2
                            ["face-swapper"; "face-enhancer"] None))
     = Some "target.mp4"
  /\ get_one_face (machine (frame_names 7) (1 # 10) no_fault) "face.png" = true
  /\ has_image_extension (machine (frame_names 7) (1 # 10) no_fault) "target.mp4"
     = false
  /\ Py.any above_threshold
       (predict_video_frames (machine (frame_names 7) (1 # 10) no_fault)
          "target.mp4") = false
  /\ Py.contains "face-enhancer"
       (frame_processors (configuration "face.png" "target.mp4" 2
                            ["face-swapper"; "face-enhancer"] None)) = true
  /\ result_of (start (machine (frame_names 7) (1 # 10) no_fault)
                      (configuration "face.png" "target.mp4" 2
                         ["face-swapper"; "face-enhancer"] None))
     = Ret tt
  /\ work FaceEnhancer
       (trace_of (start (machine (frame_names 7) (1 # 10) no_fault)
                        (configuration "face.png" "target.mp4" 2
                           ["face-swapper"; "face-enhancer"] None)))
     = []
  /\ work FaceSwapper
       (trace_of (start (machine (frame_names 7) (1 # 10) no_fault)
                        (configuration "face.png" "target.mp4" 2
                           ["face-swapper"; "face-enhancer"] None)))
     = map (pair (Some "face.png")) (frame_names 7).
Proof.
  repeat split.
Qed.

(** Where the import of [roop.core] deleted the name [torch], a video
    run with the vendor ['nvidia'] ends with [NameError] at the first
    [release_resources], once the swap is done: enhancement, reassembly
    and cleanup are not reached. *)
Lemma start_name_error_when_torch_deleted :
  start rocm_machine
        (configuration "face.png" "target.mp4" 2
           ["face-swapper"; "face-enhancer"] (Some "nvidia"))
  = (Raise (NameError "torch"),
     configuration "face.png" "target.mp4" 2
       ["face-swapper"; "face-enhancer"] (Some "nvidia"),
     extraction_stage "target.mp4"
     ++ swap_stage rocm_machine
          (configuration "face.png" "target.mp4" 2
             ["face-swapper"; "face-enhancer"] (Some "nvidia"))
          "face.png" "target.mp4").
Proof. reflexivity. Qed.

(* ===================================================================== *)
(** ** [run] *)
(* ===================================================================== *)

Lemma bind_silent {B : Type} (m : M unit) (k : M B) (g g1 : globals) :
  m g = (Ret tt, g1, []) ->
  bind m (fun _ => k) g = k g1.
Proof.
  intros H. unfold bind. rewrite H. now destruct (k g1) as [[r g2] t].
Qed.

(** In headless mode [run] ends as [start] ends: nothing in [run] catches
    what [start] raises, so the [SystemExit] of [destroy] ends the
    process. *)
Lemma run_headless (E : env) (g0 : globals) (args : namespace) :
  pre_check E (parse_args g0 args) = (Ret tt, parse_args g0 args, []) ->
  Py.truthy (headless (parse_args g0 args)) = true ->
  run E args g0
  = (result_of (start E (parse_args g0 args)),
     globals_of (start E (parse_args g0 args)),
     (if Py.contains "face-swapper" (frame_processors (parse_args g0 args))
      then [SwapperPreCheck] else [])
     ++ LimitResources :: trace_of (start E (parse_args g0 args))).
Proof.
  intros Hpre Hheadless. unfold run. rewrite bind_read.
  rewrite (bind_silent (write (parse_args g0 args)) _ g0 _ eq_refl).
  rewrite (bind_silent _ _ _ _ Hpre).
  rewrite bind_read, when_bind.
  destruct (Py.contains "face-swapper" (frame_processors (parse_args g0 args)));
    cbn [app]; repeat apply bind_emit_run;
    rewrite bind_read, Hheadless; symmetry; apply triple_eta.
Qed.

(* ===================================================================== *)
(** ** A flagged target *)
(* ===================================================================== *)

(** A run of [start] that reaches the NSFW test with a flagged target
    quits through [destroy]. *)
Lemma start_flagged (E : env) (g : globals) (source target : string) :
  target_path g = Some target ->
  flagged E target = true ->
  usable E (source_path g) = Some source ->
  usable E (target_path g) = Some target ->
  get_one_face E source = true ->
  start E g = (Raise (SystemExit None), g, [CreateTemp target; CleanTemp target]).
Proof.
  intros Htarget Hflag Hs Ht Hface.
  destruct (usable_some E _ _ Ht) as (_ & Hne & _).
  unfold start. rewrite bind_read, Hs, Ht, Hface. cbn [negb].
  rewrite bind_emit. unfold flagged in Hflag.
  destruct (has_image_extension E target).
  - unfold start_image. rewrite Hflag, when_bind.
    rewrite (bind_run _ _ _ _ _ _ (destroy_run g target Htarget Hne)).
    reflexivity.
  - unfold start_video. rewrite Hflag, when_bind.
    rewrite (bind_run _ _ _ _ _ _ (destroy_run g target Htarget Hne)).
    reflexivity.
Qed.

(** C10 (amended): when the NSFW test flags the target (the score of an
    image target, or the probability of some sampled frame of a video
    target, is above 0.85), no run of [start] writes an output file; and
    a run that reaches the test quits through [destroy]: the temporary
    files of the target are removed, then [SystemExit] is raised, and
    nothing else happens.  The exception ends the process where [start]
    runs in the main thread, as in a headless [run], which ends with
    it; started from the window by [start_in_thread] it ends the thread
    of [start] alone, and the caller goes on. *)
Theorem C10_flagged_target_quits (E : env) (g : globals) (target : string) :
  target_path g = Some target ->
  flagged E target = true ->
  forallb (fun e => negb (writes_output e)) (trace_of (start E g)) = true
  /\ (forall source,
        usable E (source_path g) = Some source ->
        usable E (target_path g) = Some target ->
        get_one_face E source = true ->
        start E g = (Raise (SystemExit None), g,
                     [CreateTemp target; CleanTemp target])
        /\ start_in_thread E g = (Ret tt, g,
                                  [CreateTemp target; CleanTemp target])
        /\ (forall g0 args,
              parse_args g0 args = g ->
              pre_check E g = (Ret tt, g, []) ->
              Py.truthy (headless g) = true ->
              run E args g0
              = (Raise (SystemExit None), g,
                 (if Py.contains "face-swapper" (frame_processors g)
                  then [SwapperPreCheck] else [])
                 ++ [LimitResources; CreateTemp target; CleanTemp target]))).
Proof.
  intros Htarget Hflag. split.
  - destruct (usable E (source_path g)) as [source |] eqn:Hs.
    + destruct (usable E (target_path g)) as [target' |] eqn:Ht.
      * destruct (usable_some E _ _ Ht) as (Heq & _).
        rewrite Htarget in Heq. injection Heq as ->.
        destruct (get_one_face E source) eqn:Hface.
        -- rewrite (start_flagged E g source target' Htarget Hflag Hs Ht Hface).
           reflexivity.
        -- unfold start. rewrite bind_read, Hs, Ht, Hface. reflexivity.
      * unfold start. rewrite bind_read, Hs, Ht. reflexivity.
    + unfold start. rewrite bind_read, Hs. reflexivity.
  - intros source Hs Ht Hface.
    pose proof (start_flagged E g source target Htarget Hflag Hs Ht Hface)
      as Hquit.
    split; [exact Hquit | split].
    + unfold start_in_thread. now rewrite Hquit.
    + intros g0 args <- Hpre Hheadless.
      rewrite (run_headless E g0 args Hpre Hheadless), Hquit.
      reflexivity.
Qed.

Lemma C10_flagged_target_quits_witness :
  start (machine (frame_names 7) (9 # 10) no_fault)
        (configuration "face.png" "target.mp4" 2 ["face-swapper"] None)
  = (Raise (SystemExit None),
     configuration "face.png" "target.mp4" 2 ["face-swapper"] None,
     [CreateTemp "target.mp4"; CleanTemp "target.mp4"])
  /\ start_in_thread (machine (frame_names 7) (9 # 10) no_fault)
       (configuration "face.png" "target.mp4" 2 ["face-swapper"] None)
     = (Ret tt,
        configuration "face.png" "target.mp4" 2 ["face-swapper"] None,
        [CreateTemp "target.mp4"; CleanTemp "target.mp4"])
  /\ run (machine (frame_names 7) (9 # 10) no_fault)
         (headless_command_line "face.png" "target.mp4" 2 ["face-swapper"])
         globals_dml
     = (Raise (SystemExit None),
        configuration "face.png" "target.mp4" 2 ["face-swapper"] None,
        [SwapperPreCheck; LimitResources;
         CreateTemp "target.mp4"; CleanTemp "target.mp4"]).
Proof.
  destruct (proj2 (C10_flagged_target_quits
                     (machine (frame_names 7) (9 # 10) no_fault)
                     (configuration "face.png" "target.mp4" 2
                        ["face-swapper"] None)
                     "target.mp4" eq_refl eq_refl)
                  "face.png" eq_refl eq_refl eq_refl) as (Hstart & Hthread & Hrun).
  split; [exact Hstart | split; [exact Hthread |]].
  apply (Hrun globals_dml
              (headless_command_line "face.png" "target.mp4" 2 ["face-swapper"]));
    reflexivity.
Defined.

(** The claim as the specification words it fails where [start] is
    started from the window: on a flagged video [start] raises
    [SystemExit], and [start_in_thread] returns to its caller, the main
    loop of the window, with the temporary files removed: the process is
    not over. *)
Lemma C10_thread_ends_not_the_process :
  flagged (machine (frame_names 7) (9 # 10) no_fault) "target.mp4" = true
  /\ result_of (start (machine (frame_names 7) (9 # 10) no_fault)
                  (configuration "face.png" "target.mp4" 2 ["face-swapper"] None))
     = Raise (SystemExit None)
  /\ start_in_thread (machine (frame_names 7) (9 # 10) no_fault)
       (configuration "face.png" "target.mp4" 2 ["face-swapper"] None)
     = (Ret tt,
        configuration "face.png" "target.mp4" 2 ["face-swapper"] None,
        [CreateTemp "target.mp4"; CleanTemp "target.mp4"]).
Proof. repeat split. Qed.

(* ===================================================================== *)
(** * Further properties *)
(* ===================================================================== *)

(* ===================================================================== *)
(** ** The branches of [conditional_process_video] *)
(* ===================================================================== *)

(** With more than one core, three frames per core is the threshold of
    the pooled branch. *)
Lemma pool_amount_threshold (len cores : Z) :
  1 < cores -> (len / cores >? 2) = (3 * cores <=? len).
Proof.
  intros Hc.
  destruct (Z.leb_spec (3 * cores) len) as [H | H].
  - apply Z.gtb_gt. apply Z.lt_gt.
    apply Z.lt_le_trans with 3; [lia |].
    apply Z.div_le_lower_bound; lia.
  - destruct (Z.gtb_spec (len / cores) 2) as [Hgt | _]; [| reflexivity].
    assert (len / cores < 3) by (apply Z.div_lt_upper_bound; lia).
    lia.
Qed.

Lemma direct_test (g : globals) (frames : list string) :
  direct g frames ->
  (Z.of_nat (List.length frames) / cpu_cores g >? 2)
  && (cpu_cores g >? 1) && is_none (gpu_vendor g) = false.
Proof.
  intros (_ & [Hv | [Hc | Hlen]]).
  - destruct (gpu_vendor g); [| contradiction]. cbn. apply andb_false_r.
  - destruct (Z.gtb_spec (cpu_cores g) 1) as [? | _]; [lia |].
    now rewrite andb_false_r.
  - destruct (Z.gtb_spec (cpu_cores g) 1) as [Hgt | _];
      [| now rewrite andb_false_r].
    rewrite pool_amount_threshold by lia.
    destruct (Z.leb_spec (3 * cpu_cores g) (Z.of_nat (List.length frames)));
      [lia | reflexivity].
Qed.

Lemma pooled_or_direct (g : globals) (frames : list string) :
  cpu_cores g <> 0 -> pooled g frames \/ direct g frames.
Proof.
  intros Hc.
  destruct (gpu_vendor g) as [v |] eqn:Hv.
  - right. split; [assumption |]. left. rewrite Hv. discriminate.
  - destruct (Z.le_gt_cases (cpu_cores g) 1) as [H1 | H1].
    + right. split; [assumption |]. right. now left.
    + destruct (Z.lt_ge_cases (Z.of_nat (List.length frames)) (3 * cpu_cores g))
        as [Hlen | Hlen].
      * right. split; [assumption |]. right. now right.
      * left. repeat split; try lia; [| assumption].
        apply Z.gtb_gt. rewrite pool_amount_threshold by lia.
        now apply Z.leb_le.
Qed.

(** The direct branch, in closed form. *)
Lemma direct_branch_run (E : env) (p : processor) (source : string)
    (frames : list string) (g : globals) :
  direct g frames ->
  conditional_process_video E p source frames g
  = (match video_fault E p (source_path g) frames "gpu" with
     | Some e => Raise (WorkerError e)
     | None => Ret tt
     end,
     g, [ProcessVideo p (source_path g) frames "gpu"]).
Proof.
  intros Hd. rewrite direct_run by (try apply direct_test; apply Hd).
  unfold call_process_video. rewrite bind_emit.
  now destruct (video_fault E p (source_path g) frames "gpu").
Qed.

(** With a number of cores other than zero the only exception is the one
    [process_video] raised. *)
Lemma result_when_cores_not_zero (E : env) (p : processor) (source : string)
    (frames : list string) (g : globals) :
  cpu_cores g <> 0 ->
  result_of (conditional_process_video E p source frames g) = Ret tt
  \/ exists e, result_of (conditional_process_video E p source frames g)
              = Raise (WorkerError e).
Proof.
  intros Hc.
  destruct (pooled_or_direct g frames Hc) as [Hp | Hd].
  - rewrite pooled_run by assumption.
    unfold result_of. cbn [fst]. rewrite get_all_first_fault.
    destruct (first_fault 0 _) as [[j e] |]; cbn [fst]; eauto.
  - rewrite direct_branch_run by assumption.
    unfold result_of. cbn [fst].
    destruct (video_fault E p (source_path g) frames "gpu"); eauto.
Qed.

(** X1: [conditional_process_video] raises [ZeroDivisionError] exactly
    when [cpu_cores] is zero, and then before any call to the pool or to
    [process_video]. *)
Theorem zero_cores_is_the_only_zero_division (E : env) (p : processor)
    (source : string) (frames : list string) (g : globals) :
  (result_of (conditional_process_video E p source frames g)
   = Raise ZeroDivisionError <-> cpu_cores g = 0)
  /\ (conditional_process_video E p source frames g
      = (Raise ZeroDivisionError, g, []) <-> cpu_cores g = 0).
Proof.
  assert (Hzero : cpu_cores g = 0 ->
                  conditional_process_video E p source frames g
                  = (Raise ZeroDivisionError, g, [])).
  { intros Hc. unfold conditional_process_video.
    rewrite bind_read, Hc. reflexivity. }
  assert (Honly : result_of (conditional_process_video E p source frames g)
                  = Raise ZeroDivisionError -> cpu_cores g = 0).
  { intros Hr.
    destruct (Z.eq_dec (cpu_cores g) 0) as [? | Hc]; [assumption | exfalso].
    destruct (result_when_cores_not_zero E p source frames g Hc) as [H | [e H]];
      rewrite H in Hr; discriminate. }
  split; split; auto.
  - intros Hc. now rewrite (Hzero Hc).
  - intros Heq. apply Honly. now rewrite Heq.
Qed.

(** X2: with more than one core and no GPU vendor, the pool is used
    exactly when there are at least three frames per core; below that
    threshold [process_video] is called once, on the whole list, in the
    parent process. *)
Theorem three_frames_per_core_threshold (E : env) (p : processor)
    (source : string) (frames : list string) (g : globals) :
  cpu_cores g > 1 ->
  gpu_vendor g = None ->
  (Z.of_nat (List.length frames) < 3 * cpu_cores g ->
   trace_of (conditional_process_video E p source frames g)
   = [ProcessVideo p (source_path g) frames "gpu"])
  /\ (3 * cpu_cores g <= Z.of_nat (List.length frames) ->
      exists rest,
        trace_of (conditional_process_video E p source frames g)
        = PoolCreate (cpu_cores g) :: rest).
Proof.
  intros Hc Hv. split; intros Hlen.
  - rewrite direct_branch_run; [reflexivity |].
    split; [lia | right; now right].
  - assert (Hp : pooled g frames).
    { repeat split; try assumption.
      apply Z.gtb_gt. rewrite pool_amount_threshold by lia. now apply Z.leb_le. }
    destruct (pooled_trace E p source frames g Hp) as (n & rest & Ht & _).
    rewrite Ht. eauto.
Qed.

Lemma three_frames_per_core_threshold_witness :
  trace_of (conditional_process_video (machine [] (1 # 10) no_fault)
              FaceSwapper "face.png" (frame_names 5)
              (configuration "face.png" "target.mp4" 2 ["face-swapper"] None))
  = [ProcessVideo FaceSwapper (Some "face.png") (frame_names 5) "gpu"].
Proof.
  apply (three_frames_per_core_threshold (machine [] (1 # 10) no_fault)
           FaceSwapper "face.png" (frame_names 5)
           (configuration "face.png" "target.mp4" 2 ["face-swapper"] None));
    reflexivity.
Defined.

(** X3: in the direct branch an exception of [process_video] leaves
    [conditional_process_video] as it is: the single call is the whole
    trace and [roop.globals] is unchanged. *)
Theorem direct_exception_propagates (E : env) (p : processor)
    (source : string) (frames : list string) (g : globals) (e : string) :
  direct g frames ->
  video_fault E p (source_path g) frames "gpu" = Some e ->
  conditional_process_video E p source frames g
  = (Raise (WorkerError e), g, [ProcessVideo p (source_path g) frames "gpu"]).
Proof.
  intros Hd He. rewrite direct_branch_run by assumption. now rewrite He.
Qed.

Lemma direct_exception_propagates_witness :
  conditional_process_video (machine [] (1 # 10) (fault_on "frame2.png"))
    FaceSwapper "face.png" (frame_names 5)
    (configuration "face.png" "target.mp4" 2 ["face-swapper"] None)
  = (Raise (WorkerError "cannot read frame"),
     configuration "face.png" "target.mp4" 2 ["face-swapper"] None,
     [ProcessVideo FaceSwapper (Some "face.png") (frame_names 5) "gpu"]).
Proof.
  apply (direct_exception_propagates (machine [] (1 # 10) (fault_on "frame2.png"))
           FaceSwapper "face.png" (frame_names 5)
           (configuration "face.png" "target.mp4" 2 ["face-swapper"] None)
           "cannot read frame").
  - split; [discriminate | right; right; reflexivity].
  - reflexivity.
Defined.

(* ===================================================================== *)
(** ** The chunks of the pooled branch *)
(* ===================================================================== *)

(** The [k]-th slice, when there is one. *)
Lemma pool_slices_nth (l : list string) (pool_amount : Z) (k : nat) :
  1 <= pool_amount ->
  (k < List.length (pool_slices l pool_amount))%nat ->
  nth_error (pool_slices l pool_amount) k
  = Some (firstn (Z.to_nat pool_amount) (skipn (k * Z.to_nat pool_amount) l)).
Proof.
  intros Hp Hk. rewrite pool_slices_length in Hk.
  rewrite pool_slices_windows by assumption.
  rewrite nth_error_map, nth_error_nth' with (d := 0%nat)
    by (now rewrite length_seq).
  rewrite seq_nth by assumption. reflexivity.
Qed.

(** X4: the chunks submitted to the pool are never empty and never hold
    more than [pool_amount] frames; every chunk but the last holds
    exactly [pool_amount]. *)
Theorem chunk_sizes (l : list string) (pool_amount : Z) (k : nat)
    (chunk : list string) :
  1 <= pool_amount ->
  nth_error (pool_slices l pool_amount) k = Some chunk ->
  1 <= Z.of_nat (List.length chunk) <= pool_amount
  /\ ((S k < List.length (pool_slices l pool_amount))%nat ->
      Z.of_nat (List.length chunk) = pool_amount).
Proof.
  intros Hp Hnth.
  assert (Hk : (k < List.length (pool_slices l pool_amount))%nat).
  { apply nth_error_Some. rewrite Hnth. discriminate. }
  rewrite pool_slices_nth in Hnth by assumption.
  injection Hnth as <-.
  rewrite pool_slices_length in *.
  rewrite length_firstn, length_skipn.
  set (len := Z.of_nat (List.length l)) in *.
  set (n := (len + pool_amount - 1) / pool_amount) in *.
  assert (Hlen : 0 <= len) by (subst len; lia).
  assert (Hn0 : 0 <= n) by (apply Z.div_pos; lia).
  assert (Hn : n * pool_amount <= len + pool_amount - 1).
  { subst n. rewrite Z.mul_comm. apply Z.mul_div_le. lia. }
  assert (HkZ : Z.of_nat k + 1 <= n) by lia.
  assert (Hstart : Z.of_nat k * pool_amount + 1 <= len) by nia.
  split.
  - nia.
  - intros Hnext.
    assert (Z.of_nat k + 2 <= n) by lia.
    assert ((Z.of_nat k + 1) * pool_amount <= len) by nia.
    nia.
Qed.

Lemma chunk_sizes_witness :
  1 <= Z.of_nat (List.length ["frame7.png"]) <= 3
  /\ ((S 2 < List.length (pool_slices (frame_names 7) 3))%nat ->
      Z.of_nat (List.length ["frame7.png"]) = 3).
Proof.
  apply (chunk_sizes (frame_names 7) 3 2 ["frame7.png"]).
  - lia.
  - reflexivity.
Defined.

(** In the pooled branch the submissions are the chunks. *)
Lemma pooled_submissions (E : env) (p : processor) (source : string)
    (frames : list string) (g : globals) :
  pooled g frames ->
  submissions (trace_of (conditional_process_video E p source frames g))
  = List.length (chunks frames g).
Proof.
  intros Hp.
  destruct (pooled_trace E p source frames g Hp) as (n & rest & Ht & Hrest).
  rewrite Ht.
  change (PoolCreate (cpu_cores g)
            :: chunk_events p source frames g ++ map Get (seq 0 n) ++ rest)
    with ([PoolCreate (cpu_cores g)]
            ++ chunk_events p source frames g ++ map Get (seq 0 n) ++ rest).
  rewrite !submissions_app, submissions_gets, submissions_chunk_events.
  destruct Hrest as [-> | ->]; cbn; lia.
Qed.

(** X5: the pooled branch never submits more than
    [cpu_cores + (cpu_cores + 1) // 3] chunks: fewer than twice the size
    of the pool. *)
Theorem chunk_count_upper_bound (E : env) (p : processor) (source : string)
    (frames : list string) (g : globals) :
  pooled g frames ->
  Z.of_nat (submissions (trace_of (conditional_process_video E p source frames g)))
  <= cpu_cores g + (cpu_cores g + 1) / 3
  /\ Z.of_nat (submissions (trace_of (conditional_process_video E p source frames g)))
     < 2 * cpu_cores g.
Proof.
  intros Hp. rewrite pooled_submissions, chunk_count by assumption.
  destruct Hp as (Hpa & Hc & _).
  set (len := Z.of_nat (List.length frames)) in *.
  set (c := cpu_cores g) in *.
  set (pa := len / c) in *.
  pose proof (Z.mod_pos_bound len c ltac:(lia)) as Hr.
  set (r := len mod c) in *.
  assert (Hq0 : 0 <= (r + pa - 1) / pa) by (apply Z.div_pos; lia).
  assert (Hq : (r + pa - 1) / pa * pa <= r + pa - 1).
  { rewrite Z.mul_comm. apply Z.mul_div_le. lia. }
  assert (Hthird : 3 * ((c + 1) / 3) > c + 1 - 3).
  { pose proof (Z.mul_succ_div_gt (c + 1) 3 ltac:(lia)). lia. }
  assert (Hbound : 3 * ((r + pa - 1) / pa) <= c + 1) by nia.
  split; [| lia].
  assert ((r + pa - 1) / pa <= (c + 1) / 3)
    by (apply Z.div_le_lower_bound; lia).
  lia.
Qed.

Lemma chunk_count_upper_bound_witness :
  Z.of_nat (submissions
              (trace_of (conditional_process_video
                           (machine [] (1 # 10) no_fault) FaceSwapper "face.png"
                           (frame_names 7)
                           (configuration "face.png" "target.mp4" 2
                              ["face-swapper"] None))))
  <= 2 + (2 + 1) / 3.
Proof.
  apply (chunk_count_upper_bound (machine [] (1 # 10) no_fault) FaceSwapper
           "face.png" (frame_names 7)
           (configuration "face.png" "target.mp4" 2 ["face-swapper"] None)).
  repeat split.
Defined.

(* ===================================================================== *)
(** ** What [conditional_process_video] touches *)
(* ===================================================================== *)

Lemma forallb_gets (f : event -> bool) (l : list nat) :
  (forall k, f (Get k) = true) -> forallb f (map Get l) = true.
Proof.
  intros Hf. induction l as [| k l IH]; [reflexivity |].
  cbn. now rewrite Hf, IH.
Qed.

Lemma forallb_chunk_events (f : event -> bool) (p : processor)
    (source : string) (frames : list string) (g : globals) :
  (forall chunk, f (ApplyAsync p (Some source) chunk "cpu") = true) ->
  forallb f (chunk_events p source frames g) = true.
Proof.
  intros Hf. unfold chunk_events.
  induction (chunks frames g) as [| c l IH]; [reflexivity |].
  cbn. now rewrite Hf, IH.
Qed.

(** A test that holds of the events of both branches holds of every
    event of [conditional_process_video]. *)
Lemma conditional_process_video_events (f : event -> bool) (E : env)
    (p : processor) (source : string) (frames : list string) (g : globals) :
  f (PoolCreate (cpu_cores g)) = true ->
  (forall chunk, f (ApplyAsync p (Some source) chunk "cpu") = true) ->
  (forall k, f (Get k) = true) ->
  f PoolClose = true ->
  f PoolJoin = true ->
  f (ProcessVideo p (source_path g) frames "gpu") = true ->
  forallb f (trace_of (conditional_process_video E p source frames g)) = true.
Proof.
  intros Hcreate Happly Hget Hclose Hjoin Hcall.
  destruct (Z.eq_dec (cpu_cores g) 0) as [Hc | Hc].
  - unfold conditional_process_video. rewrite bind_read, Hc. reflexivity.
  - destruct (pooled_or_direct g frames Hc) as [Hp | Hd].
    + destruct (pooled_trace E p source frames g Hp) as (n & rest & Ht & Hrest).
      rewrite Ht. cbn [forallb]. rewrite Hcreate, !forallb_app.
      rewrite forallb_chunk_events, forallb_gets by assumption.
      destruct Hrest as [-> | ->]; cbn; now rewrite ?Hclose, ?Hjoin.
    + rewrite direct_branch_run by assumption.
      unfold trace_of. cbn. now rewrite Hcall.
Qed.

(** X6: [conditional_process_video] leaves [roop.globals] as it is and
    makes no call other than the operations on the pool and
    [process_video]: no status update, no operation on the temporary
    files or on the output.  The tasks of the pool are given the mode
    ['cpu'] and the call in the parent process the mode ['gpu'],
    whatever the GPU vendor. *)
Theorem conditional_process_video_footprint (E : env) (p : processor)
    (source : string) (frames : list string) (g : globals) :
  globals_of (conditional_process_video E p source frames g) = g
  /\ forallb is_processing
       (trace_of (conditional_process_video E p source frames g)) = true
  /\ forallb (fun e =>
                match e with
                | ApplyAsync _ _ _ mode => (mode =? "cpu")%string
                | ProcessVideo _ _ _ mode => (mode =? "gpu")%string
                | _ => true
                end)
       (trace_of (conditional_process_video E p source frames g)) = true.
Proof.
  split; [apply conditional_process_video_globals |].
  split; apply conditional_process_video_events; reflexivity.
Qed.

(* ===================================================================== *)
(** ** More on [parse_args] *)
(* ===================================================================== *)

(** X7: without [--gpu-vendor], [parse_args] leaves
    [['CPUExecutionProvider']] in [roop.globals.providers], whatever the
    execution provider asked for and whatever the list held before. *)
Theorem no_vendor_means_cpu_provider (g0 : globals) (args : namespace) :
  Py.truthy (ns_gpu_vendor args) = false ->
  providers (parse_args g0 args) = ["CPUExecutionProvider"]
  /\ gpu_vendor (parse_args g0 args)
     = (if (ns_execution_provider args =? "directml")%string
        then Some "other" else gpu_vendor g0).
Proof.
  intros Hv. unfold parse_args. rewrite Hv.
  now destruct (ns_execution_provider args =? "directml")%string.
Qed.

Lemma no_vendor_means_cpu_provider_witness :
  providers (parse_args globals_dml (default_namespace globals_dml 4))
  = ["CPUExecutionProvider"]
  /\ gpu_vendor (parse_args globals_dml (default_namespace globals_dml 4))
     = (if (ns_execution_provider (default_namespace globals_dml 4) =? "directml")%string
        then Some "other" else gpu_vendor globals_dml).
Proof.
  apply (no_vendor_means_cpu_provider globals_dml (default_namespace globals_dml 4)).
  reflexivity.
Defined.

(** X8: with [--gpu-vendor], [parse_args] records the vendor given and
    never the CPU provider of its own: the provider is DirectML when
    [--execution-provider directml] is given too, and the list found in
    [roop.globals.providers] otherwise. *)
Theorem vendor_flag_keeps_providers (g0 : globals) (args : namespace) :
  Py.truthy (ns_gpu_vendor args) = true ->
  gpu_vendor (parse_args g0 args) = ns_gpu_vendor args
  /\ providers (parse_args g0 args)
     = (if (ns_execution_provider args =? "directml")%string
        then ["DmlExecutionProvider"] else providers g0).
Proof.
  intros Hv. unfold parse_args. rewrite Hv.
  now destruct (ns_execution_provider args =? "directml")%string.
Qed.

Lemma vendor_flag_keeps_providers_witness :
  gpu_vendor (parse_args globals_dml nvidia_command_line) = Some "nvidia"
  /\ providers (parse_args globals_dml nvidia_command_line)
     = (if (ns_execution_provider nvidia_command_line =? "directml")%string
        then ["DmlExecutionProvider"] else providers globals_dml).
Proof.
  apply (vendor_flag_keeps_providers globals_dml nvidia_command_line).
  reflexivity.
Defined.

(** X9: [roop.globals.headless] is true after [parse_args] exactly when
    one of [--face], [--target] and [--output] was given a non-empty
    value. *)
Theorem headless_iff_a_path_is_given (g0 : globals) (args : namespace) :
  Py.truthy (headless (parse_args g0 args))
  = Py.truthy (ns_source_path args)
    || Py.truthy (ns_target_path args)
    || Py.truthy (ns_output_path args).
Proof.
  assert (H : headless (parse_args g0 args)
              = Py.or_ (Py.or_ (ns_source_path args) (ns_target_path args))
                       (ns_output_path args)).
  { unfold parse_args.
    destruct (ns_execution_provider args =? "directml")%string;
      destruct (Py.truthy (ns_gpu_vendor args)); reflexivity. }
  rewrite H. unfold Py.or_.
  destruct (Py.truthy (ns_source_path args)) eqn:Hs;
    destruct (Py.truthy (ns_target_path args)) eqn:Ht;
    destruct (Py.truthy (ns_output_path args)) eqn:Ho;
    rewrite ?Hs, ?Ht, ?Ho; reflexivity.
Qed.

(** X10: after [parse_args] of a command line with
    [--execution-provider directml] or with [--gpu-vendor],
    [conditional_process_video] never creates a pool: whatever the number
    of frames and of cores, it calls [process_video] once on the whole
    list. *)
Theorem gpu_command_line_never_pools (E : env) (p : processor)
    (source : string) (frames : list string) (g0 : globals) (args : namespace) :
  (ns_execution_provider args =? "directml")%string
  || Py.truthy (ns_gpu_vendor args) = true ->
  ns_cpu_cores args <> 0 ->
  trace_of (conditional_process_video E p source frames (parse_args g0 args))
  = [ProcessVideo p (ns_source_path args) frames "gpu"].
Proof.
  intros Hgpu Hc.
  assert (Hfields : source_path (parse_args g0 args) = ns_source_path args
                    /\ cpu_cores (parse_args g0 args) = ns_cpu_cores args
                    /\ gpu_vendor (parse_args g0 args) <> None).
  { unfold parse_args.
    destruct (ns_execution_provider args =? "directml")%string;
      destruct (ns_gpu_vendor args) as [v |] eqn:Hv; cbn in *;
      try destruct (negb (v =? "")%string); cbn;
      repeat split; try discriminate. }
  destruct Hfields as (Hs & Hcores & Hvendor).
  rewrite direct_branch_run.
  - unfold trace_of. cbn [snd]. now rewrite Hs.
  - split; [now rewrite Hcores | now left].
Qed.

Lemma gpu_command_line_never_pools_witness :
  trace_of (conditional_process_video (machine [] (1 # 10) no_fault)
              FaceSwapper "face.png" (frame_names 7)
              (parse_args globals_dml directml_command_line))
  = [ProcessVideo FaceSwapper None (frame_names 7) "gpu"].
Proof.
  apply (gpu_command_line_never_pools (machine [] (1 # 10) no_fault)
           FaceSwapper "face.png" (frame_names 7) globals_dml
           directml_command_line).
  - reflexivity.
  - discriminate.
Defined.

(* ===================================================================== *)
(** ** The suggested defaults and [limit_resources] *)
(* ===================================================================== *)

Lemma half_or_one (n : Z) :
  0 <= n -> int_of (num_max (n # 2) 1) = Z.max (n / 2) 1.
Proof.
  intros Hn. unfold num_max, Qle_bool. cbn [Qnum Qden].
  destruct (Z.leb_spec (1 * 2) (n * 1)) as [H | H].
  - unfold int_of. cbn [Qnum Qden].
    rewrite Z.quot_div_nonneg by lia.
    assert (1 <= n / 2) by (apply Z.div_le_lower_bound; lia).
    lia.
  - unfold int_of. cbn.
    assert (n / 2 < 1) by (apply Z.div_lt_upper_bound; lia).
    lia.
Qed.

Lemma at_least_one (x : Q) : 1 <= int_of (num_max x 1).
Proof.
  unfold num_max, Qle_bool. cbn [Qnum Qden].
  destruct (Z.leb_spec (1 * Z.pos (Qden x)) (Qnum x * 1)) as [H | H].
  - unfold int_of. rewrite Z.quot_div_nonneg by lia.
    apply Z.div_le_lower_bound; lia.
  - unfold int_of. cbn. lia.
Qed.

(** A number below 2^53 is a float. *)
Lemma round_to_53_bits_exact (a : Z) :
  0 <= a < 2 ^ 53 -> round_to_53_bits a = a.
Proof.
  intros Ha. unfold round_to_53_bits.
  assert (Z.log2 a < 53).
  { destruct (Z.eq_dec a 0) as [-> | Hz]; [reflexivity |].
    apply Z.log2_lt_pow2; lia. }
  destruct (Z.leb_spec (Z.log2 a - 52) 0); [reflexivity | lia].
Qed.

Lemma true_div_2_exact (n : Z) :
  0 <= n <= 2 ^ 53 + 2 ->
  exists half, true_div_2 n = Some half
               /\ int_of (num_max half 1) = Z.max (n / 2) 1.
Proof.
  intros Hn.
  destruct (Z.lt_ge_cases n (2 ^ 53)) as [Hs | Hl].
  - unfold true_div_2.
    rewrite Z.abs_eq, round_to_53_bits_exact by lia.
    destruct (Z.leb_spec (2 ^ 1025) n) as [Hb | _].
    + assert (2 ^ 53 < 2 ^ 1025) by (apply Z.pow_lt_mono_r; lia). lia.
    + eexists. split; [reflexivity |].
      destruct (Z.eq_dec n 0) as [-> | Hz]; [reflexivity |].
      rewrite Z.sgn_pos by lia. rewrite Z.mul_1_l.
      now apply half_or_one.
  - assert (Hc : n = 2 ^ 53 \/ n = 2 ^ 53 + 1 \/ n = 2 ^ 53 + 2) by lia.
    destruct Hc as [-> | [-> | ->]]; eexists; split;
      vm_compute; reflexivity.
Qed.

(** X11: the number of cores [suggest_cpu_cores] returns is at least 1;
    off macOS, for a count of logical CPUs up to 2^53 + 2, it is half
    the count, rounded down, and 1 for a count below 2.  (Beyond that
    the float [psutil.cpu_count() / 2] is no longer half the count.) *)
Theorem suggested_cores_are_positive (h : host) (cores : Z) :
  suggest_cpu_cores h = Some cores ->
  1 <= cores
  /\ (forall n, on_platform h "darwin" = false ->
                cpu_count h = Some n -> 0 <= n <= 2 ^ 53 + 2 ->
                cores = Z.max (n / 2) 1).
Proof.
  unfold suggest_cpu_cores. intros Hs.
  destruct (on_platform h "darwin").
  - injection Hs as <-. split; [lia | discriminate].
  - destruct (cpu_count h) as [n |]; [| discriminate].
    destruct (true_div_2 n) as [half |] eqn:Hhalf; [| discriminate].
    injection Hs as <-. split; [apply at_least_one |].
    intros n' _ Hn' Hbound. injection Hn' as <-.
    destruct (true_div_2_exact n Hbound) as (half' & Hhalf' & Hmax).
    congruence.
Qed.

Lemma suggested_cores_are_positive_witness :
  1 <= 3
  /\ (forall n, on_platform (linux_host 7) "darwin" = false ->
                cpu_count (linux_host 7) = Some n -> 0 <= n <= 2 ^ 53 + 2 ->
                3 = Z.max (n / 2) 1).
Proof.
  apply (suggested_cores_are_positive (linux_host 7) 3). reflexivity.
Defined.

(** Past 2^53 + 2 the float is not half the count: for 2^53 + 3 CPUs
    the function returns 2^52 + 2, one more than half the count rounded
    down, and for 2^54 + 2 CPUs it returns 2^53, one less; a count of
    2^1025 makes the division raise. *)
Lemma suggested_cores_of_large_counts :
  suggest_cpu_cores (linux_host (2 ^ 53 + 3)) = Some (2 ^ 52 + 2)
  /\ (2 ^ 53 + 3) / 2 = 2 ^ 52 + 1
  /\ suggest_cpu_cores (linux_host (2 ^ 54 + 2)) = Some (2 ^ 53)
  /\ (2 ^ 54 + 2) / 2 = 2 ^ 53 + 1
  /\ suggest_cpu_cores (linux_host (2 ^ 1025)) = None.
Proof. vm_compute. repeat split; reflexivity. Qed.

(** X12: with the number of cores that [suggest_cpu_cores] returns, the
    default of [--cpu-cores], [conditional_process_video] does not raise
    [ZeroDivisionError]: it returns or raises what [process_video]
    raised. *)
Theorem default_cores_never_divide_by_zero (h : host) (E : env)
    (p : processor) (source : string) (frames : list string) (g : globals) :
  suggest_cpu_cores h = Some (cpu_cores g) ->
  result_of (conditional_process_video E p source frames g) = Ret tt
  \/ exists e, result_of (conditional_process_video E p source frames g)
              = Raise (WorkerError e).
Proof.
  intros Hs. apply result_when_cores_not_zero.
  unfold suggest_cpu_cores in Hs.
  destruct (on_platform h "darwin").
  - injection Hs as Hs. lia.
  - destruct (cpu_count h) as [n |]; [| discriminate].
    destruct (true_div_2 n) as [half |]; [| discriminate].
    injection Hs as Hs. pose proof (at_least_one half). lia.
Qed.

Lemma default_cores_never_divide_by_zero_witness :
  result_of (conditional_process_video (machine [] (1 # 10) no_fault)
               FaceSwapper "face.png" (frame_names 7)
               (configuration "face.png" "target.mp4" 2 ["face-swapper"] None))
  = Ret tt
  \/ exists e,
       result_of (conditional_process_video (machine [] (1 # 10) no_fault)
                    FaceSwapper "face.png" (frame_names 7)
                    (configuration "face.png" "target.mp4" 2 ["face-swapper"] None))
       = Raise (WorkerError e).
Proof.
  apply (default_cores_never_divide_by_zero (linux_host 4)). reflexivity.
Defined.

Lemma darwin_is_not_windows (h : host) :
  on_platform h "darwin" = true -> on_platform h "windows" = false.
Proof.
  unfold on_platform. intros H. apply String.eqb_eq in H. now rewrite H.
Qed.

(** X13: [limit_resources] enables memory growth on every GPU, in order,
    whatever [max_memory] is; a [max_memory] of zero sets no limit at
    all; any other value sets one limit, through [setrlimit] on macOS
    ([max_memory] times 1024^6 bytes) and elsewhere off Windows
    ([max_memory] times 1024^3 bytes), and through
    [SetProcessWorkingSetSize] on Windows. *)
Theorem limit_resources_calls (h : host) (g : globals) :
  limit_resources h g
  = map (fun gpu => SetMemoryGrowth gpu true) (physical_gpus h)
    ++ (if max_memory g =? 0 then []
        else if on_platform h "darwin"
             then [Setrlimit (max_memory g * 2 ^ 60) (max_memory g * 2 ^ 60)]
             else if on_platform h "windows"
                  then [SetProcessWorkingSetSize (-1)
                          (max_memory g * 2 ^ 30) (max_memory g * 2 ^ 30)]
                  else [Setrlimit (max_memory g * 2 ^ 30) (max_memory g * 2 ^ 30)]).
Proof.
  unfold limit_resources. f_equal.
  destruct (max_memory g =? 0); [reflexivity |].
  change (1024 ^ 6) with (2 ^ 60). change (1024 ^ 3) with (2 ^ 30).
  destruct (on_platform h "darwin") eqn:Hd.
  - now rewrite (darwin_is_not_windows h Hd).
  - reflexivity.
Qed.

(* ===================================================================== *)
(** ** The component registry *)
(* ===================================================================== *)

Section RegistryFacts.

Variable Component : Type.

Lemma dict_get_set (d : components Component) (k name : string) (v : Component) :
  dict_get Component (dict_set Component d k v) name
  = if (k =? name)%string then Some v else dict_get Component d name.
Proof.
  induction d as [| [k' v'] d IH]; cbn.
  - reflexivity.
  - destruct (String.eqb_spec k' k) as [-> | Hne]; cbn.
    + now destruct (k =? name)%string.
    + rewrite IH. destruct (String.eqb_spec k' name) as [-> | Hne'].
      * destruct (String.eqb_spec k name) as [-> | _];
          [contradiction | reflexivity].
      * reflexivity.
Qed.

Lemma dict_get_registrations (calls : list (string * Component))
    (d : components Component) (name : string) :
  dict_get Component
    (fold_left (fun d call => register_component Component d (fst call) (snd call))
               calls d) name
  = match last_registered Component calls name with
    | Some component => Some component
    | None => dict_get Component d name
    end.
Proof.
  revert d. induction calls as [| [k v] calls IH]; intros d; cbn.
  - reflexivity.
  - rewrite IH. unfold register_component. cbn [fst snd].
    destruct (last_registered Component calls name); [reflexivity |].
    rewrite dict_get_set. now destruct (k =? name)%string.
Qed.

(** X14: after any sequence of calls to [register_component] on a fresh
    module, [get_component(name)] returns the component of the last call
    that registered [name], and raises [KeyError] when [name] was never
    registered. *)
Theorem get_component_after_registrations (calls : list (string * Component))
    (name : string) :
  get_component Component (register_all Component calls) name
  = match last_registered Component calls name with
    | Some component => Found component
    | None => KeyError name
    end.
Proof.
  unfold get_component, register_all. rewrite dict_get_registrations.
  now destruct (last_registered Component calls name).
Qed.

End RegistryFacts.

(* ===================================================================== *)
(** ** The ways [start] ends *)
(* ===================================================================== *)

Lemma bind_raise_run {A B : Type} (m : M A) (k : A -> M B) (g g1 : globals)
    (e : exn) (t : list event) :
  m g = (Raise e, g1, t) ->
  bind m k g = (Raise e, g1, t).
Proof. intros H. unfold bind. now rewrite H. Qed.

(** [destroy] never returns and leaves [roop.globals] as it is. *)
Lemma destroy_raises (g : globals) :
  destroy g
  = (Raise (SystemExit None), g,
     match target_path g with
     | Some t => if negb (t =? "")%string then [CleanTemp t] else []
     | None => []
     end).
Proof.
  unfold destroy. rewrite bind_read.
  destruct (target_path g) as [t |]; [| reflexivity].
  now destruct (t =? "")%string.
Qed.

(** The image branch ends in one of two ways. *)
Lemma start_image_outcome (E : env) (g : globals) (source target : string) :
  bind (emit (CreateTemp target)) (fun _ => start_image E source target) g
  = if above_threshold (predict_image E target)
    then (Raise (SystemExit None), g, CreateTemp target :: trace_of (destroy g))
    else (Ret tt, g, image_stages E g source target).
Proof.
  unfold start_image.
  destruct (above_threshold (predict_image E target)).
  - apply bind_emit_run. rewrite when_bind. apply bind_raise_run.
    rewrite destroy_raises. reflexivity.
  - unfold image_stages. rewrite bind_emit, when_bind, bind_emit, bind_read.
    unfold result_of, globals_of, trace_of.
    destruct (Py.contains "face-swapper" (frame_processors g));
      destruct (is_str (gpu_vendor g) "nvidia"
                && Py.contains "face-enhancer" (frame_processors g));
      destruct (temp_isfile E (copy_temp_image E target));
      destruct (is_image E target); reflexivity.
Qed.

Section VideoOutcomes.

Variable E : env.
Variable g : globals.
Variables source target : string.

Hypothesis not_flagged :
  Py.any above_threshold (predict_video_frames E target) = false.

(** The tail of the video branch, from the second release of the
    resources, returns once the first release has found the name
    [torch]. *)
Lemma video_tail_run (g' : globals) (tail : M unit) :
  is_str (gpu_vendor g) "nvidia" && torch_deleted E = false ->
  gpu_vendor g' = gpu_vendor g ->
  keep_fps g' = keep_fps g ->
  keep_audio g' = keep_audio g ->
  output_path g' = output_path g ->
  tail = bind (release_resources E)
           (fun _ => bind (reassemble_video E target)
              (fun _ => bind (restore_audio_or_move target)
                 (fun _ => clean_up E target))) ->
  tail g'
  = (Ret tt, g',
     release_stage g ++ reassembly_stage E g target
     ++ audio_stage g target ++ cleanup_stage E target).
Proof.
  intros Hbound Hv Hf Ha Ho ->.
  eapply bind_stage; [now apply release_resources_run |].
  eapply bind_stage; [now apply reassemble_video_run |].
  eapply bind_stage; [now apply restore_audio_or_move_run |].
  apply clean_up_run.
Qed.

(** A video run past the NSFW test ends in one of three ways: it
    returns after all the stages, or it raises at the end of the swap
    stage (the swap raises, or the release of the resources that follows
    finds the name [torch] deleted), or the enhancement stage raises. *)
Lemma start_video_outcomes :
  bind (emit (CreateTemp target)) (fun _ => start_video E source target) g
  = (Ret tt, set_gpu_threads 1 g, video_stages E g source target)
  \/ (exists e,
        bind (emit (CreateTemp target)) (fun _ => start_video E source target) g
        = (Raise e, g,
           extraction_stage target ++ swap_stage E g source target))
  \/ (exists e,
        bind (emit (CreateTemp target)) (fun _ => start_video E source target) g
        = (Raise e, set_gpu_threads 1 g,
           extraction_stage target ++ swap_stage E g source target
           ++ release_stage g ++ enhance_stage E g source target)).
Proof.
  destruct (swap_frames_trace E g source target) as [Ht1 Hg1].
  destruct (enhance_frames_trace E g source target) as [Ht2 Hg2].
  destruct (swap_frames E source (get_temp_frame_paths E target) g)
    as [[r1 g1] t1] eqn:Hswap.
  destruct (enhance_frames E source (get_temp_frame_paths E target)
              (set_gpu_threads 1 g)) as [[r2 g2] t2] eqn:Henh.
  unfold trace_of, globals_of in Ht1, Hg1, Ht2, Hg2.
  cbn [fst snd] in Ht1, Hg1, Ht2, Hg2. subst t1 g1 t2 g2.
  unfold start_video, video_stages, extraction_stage.
  rewrite not_flagged. cbn [app].
  destruct (is_str (gpu_vendor g) "nvidia" && torch_deleted E) eqn:Htorch;
    [destruct r1 as [[] | e1]
    | destruct r1 as [[] | e1]; [destruct r2 as [[] | e2] |]].
  - right. left. exists (NameError "torch").
    apply bind_emit_run. rewrite when_bind.
    unfold update_status at 1 2. do 4 apply bind_emit_run.
    rewrite <- (app_nil_r (swap_stage E g source target)).
    eapply bind_stage; [exact Hswap |].
    apply bind_raise_run. now apply (release_resources_unbound E g).
  - right. left. exists e1.
    apply bind_emit_run. rewrite when_bind.
    unfold update_status at 1 2. do 4 apply bind_emit_run.
    apply bind_raise_run. exact Hswap.
  - left.
    apply bind_emit_run. rewrite when_bind.
    unfold update_status at 1 2. do 4 apply bind_emit_run.
    eapply bind_stage; [exact Hswap |].
    eapply bind_stage; [now apply release_resources_run |].
    eapply (bind_stage _ _ _ _ _ _ [] _ (limit_gpu_threads_run g)).
    eapply bind_stage; [exact Henh |].
    now apply video_tail_run.
  - right. right. exists e2.
    apply bind_emit_run. rewrite when_bind.
    unfold update_status at 1 2. do 4 apply bind_emit_run.
    eapply bind_stage; [exact Hswap |].
    eapply bind_stage; [now apply release_resources_run |].
    eapply (bind_stage _ _ _ _ _ _ [] _ (limit_gpu_threads_run g)).
    apply bind_raise_run. exact Henh.
  - right. left. exists e1.
    apply bind_emit_run. rewrite when_bind.
    unfold update_status at 1 2. do 4 apply bind_emit_run.
    apply bind_raise_run. exact Hswap.
Qed.

End VideoOutcomes.

(** Every run of [start], by cases on the three checks, the kind of the
    target and the NSFW test. *)
Lemma start_outcomes (E : env) (g : globals) :
  (checks_pass E g = false /\
   exists message, start E g = (Ret tt, g, [Status message]))
  \/ (exists source target,
        usable E (source_path g) = Some source
        /\ usable E (target_path g) = Some target
        /\ get_one_face E source = true
        /\ ((has_image_extension E target = true
             /\ start E g
                = bind (emit (CreateTemp target))
                       (fun _ => start_image E source target) g)
            \/ (has_image_extension E target = false
                /\ start E g
                   = bind (emit (CreateTemp target))
                          (fun _ => start_video E source target) g))).
Proof.
  unfold start, checks_pass. rewrite bind_read.
  destruct (usable E (source_path g)) as [source |];
    [| left; split; [reflexivity | eexists; reflexivity]].
  destruct (usable E (target_path g)) as [target |];
    [| left; split; [reflexivity | eexists; reflexivity]].
  destruct (get_one_face E source) eqn:Hface; cbn [negb];
    [| left; split; [reflexivity | eexists; reflexivity]].
  right. exists source, target. repeat split; try assumption.
  destruct (has_image_extension E target); [left | right]; now split.
Qed.

(** X15: [start] touches nothing but the status line unless the source
    path and the target path are both existing files and a face is found
    in the source image: when a check fails it returns after one status
    message, with no temporary directory created; when all pass, creating
    the temporary resources of the target is its first call. *)
Theorem start_acts_only_when_checks_pass (E : env) (g : globals) :
  if checks_pass E g
  then exists target rest,
         usable E (target_path g) = Some target
         /\ trace_of (start E g) = CreateTemp target :: rest
  else exists message, start E g = (Ret tt, g, [Status message]).
Proof.
  destruct (start_outcomes E g) as [[Hfail Hmsg] | Hpass].
  - now rewrite Hfail.
  - destruct Hpass as (source & target & Hs & Ht & Hface & Hkind).
    unfold checks_pass. rewrite Hs, Ht, Hface.
    exists target.
    destruct Hkind as [[_ ->] | [_ ->]]; rewrite bind_emit;
      eexists; (split; [reflexivity |]); reflexivity.
Qed.

(** The events of the stages that precede the reassembly of the video:
    none removes the temporary files, none writes the output. *)
Lemma no_cleanup_in_processing (E : env) (p : processor) (source : string)
    (frames : list string) (g : globals) :
  forallb (fun ev => negb (is_clean_temp ev || writes_output ev))
    (trace_of (conditional_process_video E p source frames g)) = true.
Proof. apply conditional_process_video_events; reflexivity. Qed.

Lemma no_cleanup_before_reassembly (E : env) (g : globals)
    (source target : string) :
  forallb (fun ev => negb (is_clean_temp ev || writes_output ev))
    (extraction_stage target) = true
  /\ forallb (fun ev => negb (is_clean_temp ev || writes_output ev))
       (swap_stage E g source target) = true
  /\ forallb (fun ev => negb (is_clean_temp ev || writes_output ev))
       (release_stage g) = true
  /\ forallb (fun ev => negb (is_clean_temp ev || writes_output ev))
       (enhance_stage E g source target) = true.
Proof.
  repeat split.
  - unfold swap_stage.
    destruct (Py.contains "face-swapper" (frame_processors g)); [| reflexivity].
    cbn [forallb is_clean_temp writes_output orb negb andb].
    apply no_cleanup_in_processing.
  - unfold release_stage. now destruct (is_str (gpu_vendor g) "nvidia").
  - unfold enhance_stage.
    destruct (is_str (gpu_vendor g) "nvidia"
              && Py.contains "face-enhancer" (frame_processors g));
      [| reflexivity].
    cbn [forallb is_clean_temp writes_output orb negb andb].
    apply no_cleanup_in_processing.
Qed.

(** X16: when [start] ends with an exception other than the [SystemExit]
    of [quit], that is with what [process_video] raised or with the
    [ZeroDivisionError] of a zero [cpu_cores], it has neither removed the
    temporary files of the target nor written the output file: the
    frames extracted stay on disk. *)
Theorem failure_leaves_temporary_files (E : env) (g : globals) (e : exn) :
  result_of (start E g) = Raise e ->
  is_failure e = true ->
  forallb (fun ev => negb (is_clean_temp ev || writes_output ev))
    (trace_of (start E g)) = true
  /\ exists target rest,
       trace_of (start E g) = extraction_stage target ++ rest.
Proof.
  intros Hr He.
  destruct (start_outcomes E g) as [[_ [message Hmsg]] | Hpass].
  - rewrite Hmsg in Hr. discriminate.
  - destruct Hpass as (source & target & _ & _ & _ & Hkind).
    destruct Hkind as [[_ Himage] | [_ Hvideo]].
    + rewrite Himage, start_image_outcome in Hr.
      destruct (above_threshold (predict_image E target));
        injection Hr as <- || discriminate Hr; discriminate.
    + rewrite Hvideo in *. clear Hvideo.
      destruct (Py.any above_threshold (predict_video_frames E target)) eqn:Hany.
      * unfold start_video in Hr. rewrite Hany, bind_emit, when_bind in Hr.
        rewrite (bind_raise_run _ _ _ _ _ _ (destroy_raises g)) in Hr.
        injection Hr as <-. discriminate.
      * destruct (start_video_outcomes E g source target Hany)
          as [Hall | [[e' Hswap] | [e' Henh]]].
        -- rewrite Hall in Hr. discriminate.
        -- destruct (no_cleanup_before_reassembly E g source target)
             as (H1 & H2 & _).
           rewrite Hswap. unfold trace_of. cbn [snd]. split; [| eauto].
           now rewrite forallb_app, H1, H2.
        -- destruct (no_cleanup_before_reassembly E g source target)
             as (H1 & H2 & H3 & H4).
           rewrite Henh. unfold trace_of. cbn [snd]. split; [| eauto].
           now rewrite !forallb_app, H1, H2, H3, H4.
Qed.

Lemma failure_leaves_temporary_files_witness :
  forallb (fun ev => negb (is_clean_temp ev || writes_output ev))
    (trace_of (start (machine (frame_names 7) (1 # 10) (fault_on "frame4.png"))
                     (configuration "face.png" "target.mp4" 2
                        ["face-swapper"] None))) = true
  /\ exists target rest,
       trace_of (start (machine (frame_names 7) (1 # 10) (fault_on "frame4.png"))
                       (configuration "face.png" "target.mp4" 2
                          ["face-swapper"] None))
       = extraction_stage target ++ rest.
Proof.
  apply (failure_leaves_temporary_files
           (machine (frame_names 7) (1 # 10) (fault_on "frame4.png"))
           (configuration "face.png" "target.mp4" 2 ["face-swapper"] None)
           (WorkerError "cannot read frame")); reflexivity.
Defined.

(** X17: the only attribute of [roop.globals] that [start] assigns is
    [gpu_threads], which it sets to 1 on a video target that reaches the
    end of the swap stage; every other run, and every other attribute,
    is left as it was. *)
Theorem start_assigns_only_gpu_threads (E : env) (g : globals) :
  globals_of (start E g) = g
  \/ (globals_of (start E g) = set_gpu_threads 1 g
      /\ exists target,
           usable E (target_path g) = Some target
           /\ has_image_extension E target = false
           /\ flagged E target = false).
Proof.
  destruct (start_outcomes E g) as [[_ [message Hmsg]] | Hpass].
  - left. now rewrite Hmsg.
  - destruct Hpass as (source & target & _ & Ht & _ & Hkind).
    destruct Hkind as [[_ ->] | [Hext ->]].
    + left. rewrite start_image_outcome.
      now destruct (above_threshold (predict_image E target)).
    + destruct (Py.any above_threshold (predict_video_frames E target)) eqn:Hany.
      * left. unfold start_video. rewrite Hany, bind_emit, when_bind.
        now rewrite (bind_raise_run _ _ _ _ _ _ (destroy_raises g)).
      * assert (Hflag : flagged E target = false)
          by (unfold flagged; now rewrite Hext).
        destruct (start_video_outcomes E g source target Hany)
          as [-> | [[e' ->] | [e' ->]]]; [right | left | right];
          try reflexivity; (split; [reflexivity | eauto]).
Qed.

(** X18: [destroy] never returns: it raises [SystemExit] whatever
    [roop.globals] holds, leaves [roop.globals] as it is, and before
    that removes the temporary files of the target exactly when
    [target_path] is neither [None] nor empty. *)
Theorem destroy_always_quits (g : globals) :
  result_of (destroy g) = Raise (SystemExit None)
  /\ globals_of (destroy g) = g
  /\ trace_of (destroy g)
     = match target_path g with
       | Some target => if (target =? "")%string then [] else [CleanTemp target]
       | None => []
       end.
Proof.
  rewrite destroy_raises. repeat split.
  unfold trace_of. cbn [snd].
  destruct (target_path g) as [t |]; [| reflexivity].
  now destruct (t =? "")%string.
Qed.

(* ===================================================================== *)
(** ** More on [pre_check] *)
(* ===================================================================== *)

(** The checks of the vendor ['nvidia'], once the name [torch] is found
    bound. *)
Lemma pre_check_nvidia_run (E : env) (g : globals) :
  python_below_3_9 E = false ->
  ffmpeg_missing E = false ->
  gpu_vendor g = Some "nvidia" ->
  torch_deleted E = false ->
  pre_check E g
  = if negb (torch_cuda_is_available E)
    then (Raise (SystemExit (Some "You are using --gpu=nvidia flag but CUDA is not available or properly installed on your system.")), g, [])
    else if Py.str_gt (cuda_version E) "11.8"
    then (Raise (SystemExit (Some ("CUDA version " ++ cuda_version E ++ " is not supported - please downgrade to 11.8")%string)), g, [])
    else if Py.str_lt (cuda_version E) "11.4"
    then (Raise (SystemExit (Some ("CUDA version " ++ cuda_version E ++ " is not supported - please upgrade to 11.8")%string)), g, [])
    else if cudnn_version E <? 8220
    then (Raise (SystemExit (Some ("CUDNN version " ++ str_of_int (cudnn_version E) ++ " is not supported - please upgrade to 8.9.1")%string)), g, [])
    else if cudnn_version E >? 8910
    then (Raise (SystemExit (Some ("CUDNN version " ++ str_of_int (cudnn_version E) ++ " is not supported - please downgrade to 8.9.1")%string)), g, [])
    else (Ret tt, g, []).
Proof.
  intros Hpy Hff Hv Htorch.
  unfold python_below_3_9, ffmpeg_missing in *.
  unfold pre_check, version_tuple.
  destruct (version_info E) as [[major minor] micro].
  rewrite below_3_9, Hpy, when_quit_bind, when_quit_bind, Hff, bind_read, Hv.
  change (is_str (Some "nvidia") "apple") with false.
  change (is_str (Some "nvidia") "amd") with false.
  change (is_str (Some "nvidia") "nvidia") with true.
  rewrite !when_bind. cbv iota. unfold when at 1.
  rewrite lookup_torch_bound, when_quit_bind by assumption.
  destruct (negb (torch_cuda_is_available E)); [reflexivity |].
  rewrite lookup_torch_bound, when_quit_bind by assumption.
  destruct (Py.str_gt (cuda_version E) "11.8"); [reflexivity |].
  rewrite lookup_torch_bound, when_quit_bind by assumption.
  destruct (Py.str_lt (cuda_version E) "11.4"); [reflexivity |].
  rewrite lookup_torch_bound, when_quit_bind by assumption.
  destruct (cudnn_version E <? 8220); [reflexivity |].
  rewrite lookup_torch_bound, when_quit_last by assumption.
  reflexivity.
Qed.

(** CUDA available to the program: the name [torch] is bound. *)
Lemma cuda_available_torch_bound (E : env) :
  cuda_is_available E = true ->
  torch_deleted E = false /\ torch_cuda_is_available E = true.
Proof.
  unfold cuda_is_available. intros H. apply andb_prop in H.
  destruct H as [Hbound Havailable].
  split; [now destruct (torch_deleted E) | assumption].
Qed.

(** [pre_check] has no effect of its own: it returns or raises, with
    [roop.globals] as it was and nothing called. *)
Lemma pre_check_cases (E : env) (g : globals) :
  pre_check E g = (Ret tt, g, [])
  \/ exists e, pre_check E g = (Raise e, g, []).
Proof.
  unfold pre_check.
  rewrite when_quit_bind.
  destruct (Py.tuple_lt (version_tuple E) [3; 9]); [right; eexists; reflexivity |].
  rewrite when_quit_bind.
  destruct (negb (Py.truthy (which_ffmpeg E))); [right; eexists; reflexivity |].
  rewrite bind_read, !when_when, !when_quit_bind.
  destruct (is_str (gpu_vendor g) "apple" && _); [right; eexists; reflexivity |].
  destruct (is_str (gpu_vendor g) "amd" && _); [right; eexists; reflexivity |].
  destruct (is_str (gpu_vendor g) "nvidia"); cbn [when]; [| now left].
  destruct (torch_deleted E) eqn:Htorch.
  - right. eexists. now apply lookup_torch_unbound.
  - rewrite lookup_torch_bound, when_quit_bind by assumption.
    destruct (negb (torch_cuda_is_available E)); [right; eexists; reflexivity |].
    rewrite lookup_torch_bound, when_quit_bind by assumption.
    destruct (Py.str_gt (cuda_version E) "11.8"); [right; eexists; reflexivity |].
    rewrite lookup_torch_bound, when_quit_bind by assumption.
    destruct (Py.str_lt (cuda_version E) "11.4"); [right; eexists; reflexivity |].
    rewrite lookup_torch_bound, when_quit_bind by assumption.
    destruct (cudnn_version E <? 8220); [right; eexists; reflexivity |].
    rewrite lookup_torch_bound, when_quit_last by assumption.
    destruct (cudnn_version E >? 8910); [right; eexists; reflexivity | now left].
Qed.

(** X19: [pre_check] reports the first check that fails: an old Python is
    reported whatever else is wrong, then a missing [ffmpeg]; and when
    the GPU vendor is none of ['apple'], ['amd'] and ['nvidia'] these two
    checks are all there is: [torch] and the providers are not
    consulted. *)
Theorem pre_check_order (E : env) (g : globals) :
  if python_below_3_9 E
  then pre_check E g
       = (Raise (SystemExit
            (Some "Python version is not supported - please upgrade to 3.9 or higher.")),
          g, [])
  else if ffmpeg_missing E
       then pre_check E g
            = (Raise (SystemExit (Some "ffmpeg is not installed!")), g, [])
       else if is_str (gpu_vendor g) "apple"
               || is_str (gpu_vendor g) "amd"
               || is_str (gpu_vendor g) "nvidia"
            then True
            else pre_check E g = (Ret tt, g, []).
Proof.
  unfold python_below_3_9, ffmpeg_missing, pre_check, version_tuple.
  destruct (version_info E) as [[major minor] micro].
  rewrite below_3_9, when_quit_bind.
  destruct ((major <? 3) || ((major =? 3) && (minor <? 9))); [reflexivity |].
  rewrite when_quit_bind.
  destruct (negb (Py.truthy (which_ffmpeg E))); [reflexivity |].
  rewrite bind_read.
  destruct (is_str (gpu_vendor g) "apple"); [exact I |].
  destruct (is_str (gpu_vendor g) "amd"); [exact I |].
  destruct (is_str (gpu_vendor g) "nvidia"); [exact I | reflexivity].
Qed.

(** X20: [pre_check] compares CUDA versions as strings.  With the vendor
    ['nvidia'] on a machine that passes the earlier checks, every version
    whose first character sorts after ['1'] is refused with the request
    to downgrade to 11.8, whatever follows that character: 9.2 as well
    as 12.1. *)
Theorem cuda_versions_compare_as_strings (E : env) (g : globals)
    (c : ascii) (rest : string) :
  python_below_3_9 E = false ->
  ffmpeg_missing E = false ->
  gpu_vendor g = Some "nvidia" ->
  cuda_is_available E = true ->
  cuda_version E = String c rest ->
  Ascii.ltb "1" c = true ->
  pre_check E g
  = (Raise (SystemExit
       (Some ("CUDA version " ++ String c rest
              ++ " is not supported - please downgrade to 11.8")%string)),
     g, []).
Proof.
  intros Hpy Hff Hv Hcuda Hversion Hc.
  destruct (cuda_available_torch_bound E Hcuda) as [Htorch Havailable].
  rewrite pre_check_nvidia_run by assumption.
  rewrite Havailable, Hversion. cbn [negb].
  assert (Hgt : Py.str_gt (String c rest) "11.8" = true).
  { unfold Py.str_gt, String.ltb. cbn [String.compare].
    unfold Ascii.ltb in Hc.
    destruct (Ascii.compare "1" c); try discriminate. reflexivity. }
  now rewrite Hgt.
Qed.

Lemma cuda_versions_compare_as_strings_witness :
  pre_check (machine_with_cuda "9.2")
    (configuration "face.png" "target.mp4" 2 ["face-swapper"] (Some "nvidia"))
  = (Raise (SystemExit
       (Some "CUDA version 9.2 is not supported - please downgrade to 11.8")),
     configuration "face.png" "target.mp4" 2 ["face-swapper"] (Some "nvidia"),
     []).
Proof.
  apply (cuda_versions_compare_as_strings (machine_with_cuda "9.2")
           (configuration "face.png" "target.mp4" 2 ["face-swapper"]
              (Some "nvidia"))
           "9" ".2"); reflexivity.
Defined.

(* ===================================================================== *)
(** ** More on [run] *)
(* ===================================================================== *)

(** X21: when [pre_check] quits, [run] stops there: the models are not
    checked, no resource limit is set, nothing is processed and no
    window is opened. *)
Theorem run_stops_when_pre_check_quits (E : env) (g0 : globals)
    (args : namespace) (e : exn) :
  result_of (pre_check E (parse_args g0 args)) = Raise e ->
  run E args g0 = (Raise e, parse_args g0 args, []).
Proof.
  intros Hr. unfold run. rewrite bind_read.
  rewrite (bind_silent (write (parse_args g0 args)) _ g0 _ eq_refl).
  apply bind_raise_run.
  destruct (pre_check_cases E (parse_args g0 args)) as [H | [message H]];
    rewrite H in Hr |- *; [discriminate |].
  now injection Hr as <-.
Qed.

Lemma run_stops_when_pre_check_quits_witness :
  run (machine_with_cuda "9.2") nvidia_command_line globals_dml
  = (Raise (SystemExit
       (Some "CUDA version 9.2 is not supported - please downgrade to 11.8")),
     parse_args globals_dml nvidia_command_line, []).
Proof.
  apply (run_stops_when_pre_check_quits (machine_with_cuda "9.2") globals_dml
           nvidia_command_line). reflexivity.
Defined.

(** X22: on a command line that gives none of [--face], [--target] and
    [--output], once [pre_check] has returned, [run] checks the swapper
    model when ['face-swapper'] is selected, limits the resources and
    opens the window: [start] is not called, so no file is read or
    written. *)
Theorem run_without_paths_opens_the_window (E : env) (g0 : globals)
    (args : namespace) :
  result_of (pre_check E (parse_args g0 args)) = Ret tt ->
  Py.truthy (ns_source_path args) = false ->
  Py.truthy (ns_target_path args) = false ->
  Py.truthy (ns_output_path args) = false ->
  run E args g0
  = (Ret tt, parse_args g0 args,
     (if Py.contains "face-swapper" (ns_frame_processor args)
      then [SwapperPreCheck] else [])
     ++ [LimitResources; UiMainloop]).
Proof.
  intros Hr Hs Ht Ho.
  assert (Hpre : pre_check E (parse_args g0 args) = (Ret tt, parse_args g0 args, [])).
  { destruct (pre_check_cases E (parse_args g0 args)) as [H | [message H]];
      [assumption | rewrite H in Hr; discriminate]. }
  assert (Hheadless : Py.truthy (headless (parse_args g0 args)) = false).
  { assert (H : headless (parse_args g0 args)
                = Py.or_ (Py.or_ (ns_source_path args) (ns_target_path args))
                         (ns_output_path args)).
    { unfold parse_args.
      destruct (ns_execution_provider args =? "directml")%string;
        destruct (Py.truthy (ns_gpu_vendor args)); reflexivity. }
    rewrite H. unfold Py.or_. now rewrite Hs, Ht, Ho. }
  assert (Hprocessors : frame_processors (parse_args g0 args)
                        = ns_frame_processor args).
  { unfold parse_args.
    destruct (ns_execution_provider args =? "directml")%string;
      destruct (Py.truthy (ns_gpu_vendor args)); reflexivity. }
  unfold run. rewrite bind_read.
  rewrite (bind_silent (write (parse_args g0 args)) _ g0 _ eq_refl).
  rewrite (bind_silent _ _ _ _ Hpre).
  rewrite bind_read, when_bind, Hprocessors.
  destruct (Py.contains "face-swapper" (ns_frame_processor args));
    cbn [app]; repeat apply bind_emit_run;
    rewrite bind_read, Hheadless; reflexivity.
Qed.

Lemma run_without_paths_opens_the_window_witness :
  run (machine [] (1 # 10) no_fault) (default_namespace globals_dml 4) globals_dml
  = (Ret tt, parse_args globals_dml (default_namespace globals_dml 4),
     [SwapperPreCheck; LimitResources; UiMainloop]).
Proof.
  apply (run_without_paths_opens_the_window (machine [] (1 # 10) no_fault)
           globals_dml (default_namespace globals_dml 4)); reflexivity.
Defined.

(* ===================================================================== *)
(** ** The CUDA versions [pre_check] accepts *)
(* ===================================================================== *)

(** With the vendor ['nvidia'], past the checks of Python, [ffmpeg],
    CUDA availability and with a supported CUDNN, [pre_check] returns
    exactly when the CUDA version passes the two string tests. *)
Lemma pre_check_nvidia (E : env) (g : globals) :
  python_below_3_9 E = false ->
  ffmpeg_missing E = false ->
  gpu_vendor g = Some "nvidia" ->
  cuda_is_available E = true ->
  cudnn_in_range (cudnn_version E) = true ->
  result_of (pre_check E g) = Ret tt <-> cuda_in_range (cuda_version E) = true.
Proof.
  intros Hpy Hff Hv Hcuda Hcudnn.
  destruct (cuda_available_torch_bound E Hcuda) as [Htorch Havailable].
  rewrite pre_check_nvidia_run by assumption.
  unfold cudnn_in_range, cuda_in_range in *.
  rewrite Havailable. cbn [negb].
  rewrite !str_leb_ltb.
  unfold Py.str_gt, Py.str_lt.
  apply andb_prop in Hcudnn. destruct Hcudnn as [Hlow Hhigh].
  apply Z.leb_le in Hlow, Hhigh.
  destruct (Z.ltb_spec (cudnn_version E) 8220) as [? | _]; [lia |].
  destruct (Z.gtb_spec (cudnn_version E) 8910) as [? | _]; [lia |].
  destruct (String.ltb "11.8" (cuda_version E));
    destruct (String.ltb (cuda_version E) "11.4"); cbn;
    split; intros H; try discriminate; reflexivity.
Qed.

(** X23: on an otherwise supported machine with the vendor ['nvidia'],
    among the CUDA versions [major.minor] with a one-digit minor
    [pre_check] accepts exactly 11.4 to 11.8. *)
Theorem accepted_cuda_versions (E : env) (g : globals) (major minor : Z) :
  python_below_3_9 E = false ->
  ffmpeg_missing E = false ->
  gpu_vendor g = Some "nvidia" ->
  cuda_is_available E = true ->
  cudnn_in_range (cudnn_version E) = true ->
  cuda_version E = version_string major minor ->
  0 <= major < 100 ->
  0 <= minor < 10 ->
  result_of (pre_check E g) = Ret tt <-> major = 11 /\ 4 <= minor <= 8.
Proof.
  intros Hpy Hff Hv Hcuda Hcudnn Hversion Hmajor Hminor.
  rewrite pre_check_nvidia by assumption.
  rewrite Hversion, cuda_range_numeric by assumption.
  unfold cuda_numeric_in_range.
  rewrite !andb_true_iff, Z.eqb_eq, !Z.leb_le. tauto.
Qed.

Lemma accepted_cuda_versions_witness :
  result_of (pre_check (machine_with_cuda "11.6")
               (configuration "face.png" "target.mp4" 2 ["face-swapper"]
                  (Some "nvidia")))
  = Ret tt
  <-> 11 = 11 /\ 4 <= 6 <= 8.
Proof.
  apply (accepted_cuda_versions (machine_with_cuda "11.6")
           (configuration "face.png" "target.mp4" 2 ["face-swapper"]
              (Some "nvidia")) 11 6); try reflexivity; lia.
Defined.

(* ===================================================================== *)
(** ** The frames [start] processes *)
(* ===================================================================== *)

Lemma work_other_processor (E : env) (p q : processor) (source : string)
    (frames : list string) (g : globals) :
  processor_eqb p q = false ->
  work p (trace_of (conditional_process_video E q source frames g)) = [].
Proof.
  intros Hpq.
  destruct (Z.eq_dec (cpu_cores g) 0) as [Hc | Hc].
  - unfold conditional_process_video. rewrite bind_read, Hc. reflexivity.
  - destruct (pooled_or_direct g frames Hc) as [Hp | Hd].
    + destruct (pooled_trace E q source frames g Hp) as (n & rest & Ht & Hrest).
      rewrite Ht.
      change (PoolCreate (cpu_cores g)
                :: chunk_events q source frames g ++ map Get (seq 0 n) ++ rest)
        with ([PoolCreate (cpu_cores g)]
                ++ chunk_events q source frames g ++ map Get (seq 0 n) ++ rest).
      rewrite !work_app, work_gets.
      assert (Hchunks : work p (chunk_events q source frames g) = []).
      { unfold chunk_events.
        induction (chunks frames g) as [| c l IH]; [reflexivity |].
        cbn. now rewrite Hpq, IH. }
      rewrite Hchunks. destruct Hrest as [-> | ->]; reflexivity.
    + rewrite direct_branch_run by assumption.
      unfold trace_of. cbn. now rewrite Hpq.
Qed.

(** The work of one call, when the parameter is the source image of
    [roop.globals]. *)
Lemma work_of_call (E : env) (p q : processor) (source : string)
    (frames : list string) (g : globals) :
  cpu_cores g <> 0 ->
  source_path g = Some source ->
  work p (trace_of (conditional_process_video E q source frames g))
  = if processor_eqb p q then map (pair (Some source)) frames else [].
Proof.
  intros Hc Hs.
  destruct (processor_eqb p q) eqn:Hpq; [| now apply work_other_processor].
  assert (p = q) as <- by (destruct p, q; congruence || discriminate).
  destruct (pooled_or_direct g frames Hc) as [Hp | Hd].
  - now apply pooled_work.
  - rewrite direct_work, Hs; [reflexivity | apply Hd | now apply direct_test].
Qed.

(** The work of the stages of the video branch. *)
Lemma work_of_stages (E : env) (g : globals) (source target : string)
    (p : processor) :
  cpu_cores g <> 0 ->
  source_path g = Some source ->
  work p (extraction_stage target) = []
  /\ work p (swap_stage E g source target)
     = (if Py.contains "face-swapper" (frame_processors g) && processor_eqb p FaceSwapper
        then map (pair (Some source)) (get_temp_frame_paths E target)
        else [])
  /\ work p (release_stage g) = []
  /\ work p (enhance_stage E g source target)
     = (if is_str (gpu_vendor g) "nvidia"
           && Py.contains "face-enhancer" (frame_processors g)
           && processor_eqb p FaceEnhancer
        then map (pair (Some source)) (get_temp_frame_paths E target)
        else [])
  /\ work p (reassembly_stage E g target) = []
  /\ work p (audio_stage g target) = []
  /\ work p (cleanup_stage E target) = [].
Proof.
  intros Hc Hs. repeat split.
  - unfold swap_stage.
    destruct (Py.contains "face-swapper" (frame_processors g)); [| reflexivity].
    cbn [work andb]. now apply work_of_call.
  - unfold release_stage. now destruct (is_str (gpu_vendor g) "nvidia").
  - unfold enhance_stage.
    destruct (is_str (gpu_vendor g) "nvidia"
              && Py.contains "face-enhancer" (frame_processors g));
      [| reflexivity].
    cbn [work andb]. now apply work_of_call.
  - unfold reassembly_stage. now destruct (keep_fps g).
  - unfold audio_stage. now destruct (keep_fps g), (keep_audio g).
Qed.

(** X24: on a video target that passes the checks, in a run where
    [cpu_cores] is not zero and [process_video] does not raise, [start]
    hands every extracted frame to the face swapper exactly once, in the
    order of the video and with the source image, when ['face-swapper']
    is selected, and no frame otherwise; the same holds of the face
    enhancer when ['face-enhancer'] is selected and the GPU vendor is
    ['nvidia'], provided the name [torch] is bound when
    [release_resources] evaluates it.  This holds whichever branch
    [conditional_process_video] takes. *)
Theorem start_processes_every_frame_once (E : env) (g : globals)
    (source target : string) :
  usable E (source_path g) = Some source ->
  usable E (target_path g) = Some target ->
  get_one_face E source = true ->
  has_image_extension E target = false ->
  Py.any above_threshold (predict_video_frames E target) = false ->
  cpu_cores g <> 0 ->
  (forall p s c m, video_fault E p s c m = None) ->
  work FaceSwapper (trace_of (start E g))
  = (if Py.contains "face-swapper" (frame_processors g)
     then map (pair (Some source)) (get_temp_frame_paths E target)
     else [])
  /\ (is_str (gpu_vendor g) "nvidia" && torch_deleted E = false ->
      work FaceEnhancer (trace_of (start E g))
      = (if is_str (gpu_vendor g) "nvidia"
            && Py.contains "face-enhancer" (frame_processors g)
         then map (pair (Some source)) (get_temp_frame_paths E target)
         else [])).
Proof.
  intros Hs Ht Hface Hext Hany Hc Hok.
  destruct (usable_some E _ _ Hs) as (Hsource & _).
  assert (Hstart : start E g
                   = bind (emit (CreateTemp target))
                          (fun _ => start_video E source target) g).
  { unfold start. rewrite bind_read, Hs, Ht, Hface. cbn [negb].
    now rewrite Hext. }
  rewrite Hstart. split.
  - destruct (work_of_stages E g source target FaceSwapper Hc Hsource)
      as (H1 & H2 & H3 & H4 & H5 & H6 & H7).
    rewrite andb_true_r in H2. rewrite andb_false_r in H4.
    destruct (start_video_outcomes E g source target Hany)
      as [-> | [[e ->] | [e ->]]]; unfold trace_of; cbn [snd];
      unfold video_stages; rewrite !work_app, ?H1, ?H2, ?H3, ?H4, ?H5, ?H6, ?H7;
      cbn [app]; now rewrite ?app_nil_r.
  - intros Hbound.
    destruct (work_of_stages E g source target FaceEnhancer Hc Hsource)
      as (H1 & H2 & H3 & H4 & H5 & H6 & H7).
    rewrite andb_false_r in H2. rewrite andb_true_r in H4.
    rewrite (start_video_run E g source target Hc Hok Hbound Hany).
    unfold trace_of. cbn [snd].
    unfold video_stages. rewrite !work_app, ?H1, ?H2, ?H3, ?H4, ?H5, ?H6, ?H7.
    cbn [app]. now rewrite ?app_nil_r.
Qed.

Lemma start_processes_every_frame_once_witness :
  work FaceSwapper
    (trace_of (start (machine (frame_names 7) (1 # 10) no_fault)
                     (configuration "face.png" "target.mp4" 2
                        ["face-swapper"] None)))
  = map (pair (Some "face.png")) (frame_names 7).
Proof.
  apply (start_processes_every_frame_once
           (machine (frame_names 7) (1 # 10) no_fault)
           (configuration "face.png" "target.mp4" 2 ["face-swapper"] None)
           "face.png" "target.mp4"); try reflexivity.
  discriminate.
Defined.
